(** * The OpenRouter backend of AIDE: [aide/backend/backend_openrouter.py]

    A shallow embedding of the module's two functions,
    [_setup_openrouter_client] and [query], and proofs of the properties
    stated about them.

    Python values are an inductive type, dictionaries are finite maps with
    string keys, and the effects of [query] (the module global [_client],
    the [once] guard, the logger, the clock and the outbound call) are
    threaded through a state-and-exception monad.  The collaborators that
    live outside the module (the OpenAI client constructor, the
    retry-wrapped call [backoff_create], [json.loads], [time.time] and the
    printing of a response message) are the fields of a class, over which
    [query] and every theorem about it are stated. *)

From Stdlib Require Import ZArith String Ascii List Bool Lia.
From Stdlib Require Import Floats.SpecFloat.
From stdpp Require Import gmap strings list fin_maps.

#[local] Set Warnings "-register-all".

(** ** Python values *)

(** The values that travel through [query]: keyword arguments, message and
    tool dictionaries, decoded JSON and the metadata dictionary. *)
Inductive pyval : Type :=
| PNone
| PBool (b : bool)
| PInt (z : Z)
| PFloat (f : spec_float)
| PStr (s : string)
| PList (l : list pyval)
| PDict (d : gmap string pyval).

(** An [Optional[str]] seen as a Python value. *)
Definition py_of_optstr (o : option string) : pyval :=
  match o with
  | Some s => PStr s
  | None => PNone
  end.

(** Truth value of a Python object, as tested by [if message] and by
    [assert]. *)
Definition truthy (v : pyval) : bool :=
  match v with
  | PNone => false
  | PBool b => b
  | PInt z => negb (z =? 0)%Z
  | PFloat f =>
      match f with
      | S754_zero _ => false
      | _ => true
      end
  | PStr s => negb (String.eqb s "")
  | PList l =>
      match l with
      | [] => false
      | _ :: _ => true
      end
  | PDict d => negb (bool_decide (dom d = ∅))
  end.

(** [funcy.notnone]: [lambda x: x is not None]. *)
Definition notnone (v : pyval) : bool :=
  match v with
  | PNone => false
  | _ => true
  end.

(** [funcy.select_values pred coll] on a dictionary: the entries whose
    value passes [pred]. *)
Definition select_values (pred : pyval → bool) (coll : gmap string pyval)
  : gmap string pyval :=
  filter (λ kv, pred kv.2 = true) coll.

(** ** Exceptions and log records *)

Inductive exn_class : Type :=
| AssertionError
| JSONDecodeError
| TypeError
| IndexError
| AttributeError
| OtherError (cls : string).

Record exn : Type := Exn { exn_cls : exn_class; exn_msg : string }.

Definition is_JSONDecodeError (e : exn) : bool :=
  match exn_cls e with
  | JSONDecodeError => true
  | _ => false
  end.

Inductive log_level : Type := INFO | ERROR.

Record log_record : Type := LogRecord { levelname : log_level; msg : string }.

(** ** Collaborator data *)

(** [aide.backend.utils.FunctionSpec]: the name and the two
    representations that [query] reads from it. *)
Record FunctionSpec : Type := {
  name : string;
  as_openai_tool_dict : pyval;
  openai_tool_choice_dict : pyval;
}.

(** The part of an OpenAI chat completion that [query] consumes. *)
Record Function : Type := {
  fn_name : string;          (* [function.name] *)
  arguments : string;        (* [function.arguments] *)
}.

Record ToolCall : Type := { function : Function }.

Record ChatCompletionMessage : Type := {
  content : option string;
  tool_calls : option (list ToolCall);
}.

Record Choice : Type := { message : ChatCompletionMessage }.

Record CompletionUsage : Type := {
  prompt_tokens : Z;
  completion_tokens : Z;
}.

Record ChatCompletion : Type := {
  choices : list Choice;
  usage : option CompletionUsage;
  system_fingerprint : option string;
  model : string;
  created : Z;
}.

(** ** The request *)

(** Lines 57-61: one user-role dictionary for every truthy element of
    [[system_message, user_message]], in that order. *)
Definition build_messages (system_message user_message : option string)
  : list (gmap string pyval) :=
  (λ message, {[ "role" := PStr "user"; "content" := message ]})
    <$> filter (λ message, truthy message = true)
          [py_of_optstr system_message; py_of_optstr user_message].

(** Lines 68-73: the fixed provider routing directive. *)
Definition extra_body : pyval :=
  PDict {[ "provider" :=
    PDict {[ "order" := PList [PStr "Fireworks"];
             "ignore" := PList [PStr "Together"; PStr "DeepInfra";
                                PStr "Hyperbolic"] ]} ]}.

(** Lines 21-26. *)
Definition OPENAI_TIMEOUT_EXCEPTIONS : list string :=
  ["RateLimitError"; "APIConnectionError"; "APITimeoutError";
   "InternalServerError"].

(** Lines 51 and 53: the two item assignments made when a function
    specification is given. *)
Definition inject_tool (fs : FunctionSpec)
    (filtered_kwargs : gmap string pyval) : gmap string pyval :=
  <["tool_choice" := openai_tool_choice_dict fs]>
    (<["tools" := PList [as_openai_tool_dict fs]]> filtered_kwargs).

(** The keyword arguments received by the completion call. *)
Record request : Type := {
  req_messages : list (gmap string pyval);
  req_extra_body : pyval;
  req_kwargs : gmap string pyval;
}.

(** The call at lines 64-75 passes [messages=] and [extra_body=]
    explicitly and then unpacks [**filtered_kwargs]; Python refuses a
    keyword given twice with a [TypeError] raised at the call site.  When
    both names are given twice Python names the one that the caller wrote
    first, an order that the dictionary here does not keep: [messages] is
    named then. *)
Definition duplicate_keyword (filtered_kwargs : gmap string pyval)
  : option string :=
  if bool_decide ("messages" ∈ dom filtered_kwargs) then Some "messages"
  else if bool_decide ("extra_body" ∈ dom filtered_kwargs)
       then Some "extra_body"
  else None.

Definition call_keywords (messages : list (gmap string pyval))
    (filtered_kwargs : gmap string pyval) : exn + request :=
  match duplicate_keyword filtered_kwargs with
  | Some k =>
      inl (Exn TypeError
             ("aide.backend.utils.backoff_create() got multiple values "
              +:+ "for keyword argument '"
              +:+ k +:+ "'"))
  | None =>
      inr {| req_messages := messages;
             req_extra_body := extra_body;
             req_kwargs := filtered_kwargs |}
  end.

(** ** Derived views used in the statements *)

(** The entry that a non-empty text contributes to the message list;
    nothing for [None] and for the empty string. *)
Definition user_entries (text : option string) : list (gmap string pyval) :=
  match text with
  | Some s =>
      if String.eqb s "" then []
      else [ {[ "role" := PStr "user"; "content" := PStr s ]} ]
  | None => []
  end.

Definition role_of (entry : gmap string pyval) : option pyval :=
  entry !! "role".

Definition the_client_init (env : gmap string string)
  : string * option string * Z :=
  ("https://openrouter.ai/api/v1", env !! "OPENROUTER_API_KEY", 0%Z).

(** The dictionary unpacked into the completion call at line 74. *)
Definition forwarded_kwargs (func_spec : option FunctionSpec)
    (model_kwargs : gmap string pyval) : gmap string pyval :=
  let filtered_kwargs := select_values notnone model_kwargs in
  match func_spec with
  | Some fs => inject_tool fs filtered_kwargs
  | None => filtered_kwargs
  end.

(** The names assigned at lines 51 and 53 when a function specification is
    given. *)
Definition set_from_func_spec (func_spec : option FunctionSpec) (k : string)
  : Prop :=
  func_spec ≠ None ∧ (k = "tools" ∨ k = "tool_choice").

(** ** Collaborators

    What [query] uses from outside the module.  [openai_OpenAI base_url
    api_key max_retries] is the client constructor, which may raise;
    [time_time n] is the value of the [n]-th reading of the clock;
    [backoff_create client retry request n now] is what the retry-wrapped
    [client.chat.completions.create] does in the [n]-th completion call
    of the process, made when the clock has been read [now] times: its
    outcome, and the texts that the helper wrote meanwhile on the logger
    of this module, one INFO record for each attempt it retried;
    [json_loads] is [json.loads]; [message_str] prints a response message
    inside an f-string. *)
Class Collaborators : Type := {
  Client : Type;
  openai_OpenAI : string → option string → Z → exn + Client;
  time_time : nat → spec_float;
  backoff_create :
    Client → list string → request → nat → nat
    → (exn + ChatCompletion) * list string;
  json_loads : string → exn + pyval;
  message_str : ChatCompletionMessage → string;
}.

(** ** The process and its effects *)

Section Backend.

Context `{Collaborators}.

(** What [query] reads and writes besides its arguments.  [once_done] is
    the memory of the [once] decorator, [_client] the module global,
    [environ] the process environment, [records] the calls made on the
    logger, [requests] the completion calls made, [ticks] the number of
    clock readings.  [client_inits] is a ghost field: the arguments of
    every execution of the body of [_setup_openrouter_client]. *)
Record process : Type := {
  once_done : bool;
  _client : option Client;
  environ : gmap string string;
  client_inits : list (string * option string * Z);
  records : list log_record;
  requests : list request;
  ticks : nat;
}.

(** The state at import time: [_client = None], nothing has run. *)
Definition initial_process (env : gmap string string) : process :=
  {| once_done := false; _client := None; environ := env;
     client_inits := []; records := []; requests := []; ticks := 0 |}.

Definition M (A : Type) : Type := process → (exn + A) * process.

#[export] Instance M_ret : MRet M := λ A a p, (inr a, p).

#[export] Instance M_bind : MBind M := λ A B k m p,
  match m p with
  | (inr a, p') => k a p'
  | (inl e, p') => (inl e, p')
  end.

Definition raise {A : Type} (e : exn) : M A := λ p, (inl e, p).

Definition log (lvl : log_level) (s : string) : M unit := λ p,
  (inr tt,
   {| once_done := once_done p; _client := _client p;
      environ := environ p; client_inits := client_inits p;
      records := records p ++ [LogRecord lvl s];
      requests := requests p; ticks := ticks p |}).

Definition logger_info : string → M unit := log INFO.
Definition logger_error : string → M unit := log ERROR.

(** [time.time()]. *)
Definition time_now : M spec_float := λ p,
  (inr (time_time (ticks p)),
   {| once_done := once_done p; _client := _client p;
      environ := environ p; client_inits := client_inits p;
      records := records p; requests := requests p;
      ticks := S (ticks p) |}).

(** [funcy.once]: the call is recorded as done before the function runs,
    so a function that raises is not run again either; later calls
    return [None] without running it. *)
Definition once (func : M unit) : M unit := λ p,
  if once_done p then (inr tt, p)
  else func {| once_done := true; _client := _client p;
               environ := environ p; client_inits := client_inits p;
               records := records p; requests := requests p;
               ticks := ticks p |}.

(** Lines 29-36. *)
Definition _setup_openrouter_client : M unit :=
  once (λ p,
    let base_url := "https://openrouter.ai/api/v1" in
    let api_key := environ p !! "OPENROUTER_API_KEY" in
    let max_retries := 0%Z in
    let inits := client_inits p ++ [(base_url, api_key, max_retries)] in
    match openai_OpenAI base_url api_key max_retries with
    | inr client =>
        (inr tt,
         {| once_done := once_done p; _client := Some client;
            environ := environ p; client_inits := inits;
            records := records p; requests := requests p;
            ticks := ticks p |})
    | inl e =>
        (inl e,
         {| once_done := once_done p; _client := _client p;
            environ := environ p; client_inits := inits;
            records := records p; requests := requests p;
            ticks := ticks p |})
    end).

(** Lines 64-75: [_client.chat.completions.create] is looked up on the
    global, the keyword arguments are assembled and the retry-wrapped
    call is made; what the helper logged during the call is in the log
    when it ends. *)
Definition completions_create (messages : list (gmap string pyval))
    (filtered_kwargs : gmap string pyval) : M ChatCompletion := λ p,
  match _client p with
  | None =>
      (inl (Exn AttributeError "'NoneType' object has no attribute 'chat'"),
       p)
  | Some client =>
      match call_keywords messages filtered_kwargs with
      | inl e => (inl e, p)
      | inr req =>
          let '(outcome, retried) :=
            backoff_create client OPENAI_TIMEOUT_EXCEPTIONS req
              (length (requests p)) (ticks p) in
          (outcome,
           {| once_done := once_done p; _client := _client p;
              environ := environ p; client_inits := client_inits p;
              records := records p ++ (LogRecord INFO <$> retried);
              requests := requests p ++ [req];
              ticks := ticks p |})
      end
  end.

(** Line 78: [completion.choices[0]]. *)
Definition first_choice (completion : ChatCompletion) : M Choice :=
  match choices completion with
  | choice :: _ => mret choice
  | [] => raise (Exn IndexError "list index out of range")
  end.

(** Lines 81-97. *)
Definition parse_output (func_spec : option FunctionSpec) (choice : Choice)
  : M pyval :=
  match func_spec with
  | None => mret (py_of_optstr (content (message choice)))
  | Some fs =>
      match tool_calls (message choice) with
      | None | Some [] =>
          raise (Exn AssertionError
                   ("tool_calls is empty, not a tool call response: "
                    +:+ message_str (message choice)))
      | Some (tool_call :: _) =>
          if negb (String.eqb (fn_name (function tool_call)) (name fs)) then
            raise (Exn AssertionError
                     ("Function name mismatch: expected " +:+ name fs
                      +:+ ", got " +:+ fn_name (function tool_call)))
          else
            match json_loads (arguments (function tool_call)) with
            | inr output =>
                logger_info ("Successfully parsed tool call response for "
                             +:+ name fs);;
                mret output
            | inl e =>
                if is_JSONDecodeError e then
                  logger_error ("Error decoding function arguments: "
                                +:+ arguments (function tool_call));;
                  raise e
                else raise e
            end
      end
  end.

(** Lines 99-100. *)
Definition token_counts (completion : ChatCompletion) : M (Z * Z) :=
  match usage completion with
  | Some u => mret (prompt_tokens u, completion_tokens u)
  | None =>
      raise (Exn AttributeError
               "'NoneType' object has no attribute 'prompt_tokens'")
  end.

(** Lines 102-106. *)
Definition info_dict (completion : ChatCompletion) : gmap string pyval :=
  {[ "system_fingerprint" := py_of_optstr (system_fingerprint completion);
     "model" := PStr (model completion);
     "created" := PInt (created completion) ]}.

(** Lines 46-76 of [query]: from the client set-up to the elapsed time
    of the completion call. *)
Definition request_completion (system_message user_message : option string)
    (func_spec : option FunctionSpec) (model_kwargs : gmap string pyval)
  : M (ChatCompletion * spec_float) :=
  _setup_openrouter_client;;
  filtered_kwargs ←
    (let filtered_kwargs := select_values notnone model_kwargs in
     match func_spec with
     | Some fs =>
         let filtered_kwargs := inject_tool fs filtered_kwargs in
         logger_info ("Using OpenRouter tool calling for " +:+ name fs);;
         mret filtered_kwargs
     | None => mret filtered_kwargs
     end);
  let messages := build_messages system_message user_message in
  t0 ← time_now;
  completion ← completions_create messages filtered_kwargs;
  t1 ← time_now;
  mret (completion, SFsub 53 1024 t1 t0).

(** Lines 78-108 of [query]: from the first choice to the returned
    tuple. *)
Definition read_completion (func_spec : option FunctionSpec)
    (completion : ChatCompletion) (req_time : spec_float)
  : M (pyval * spec_float * Z * Z * gmap string pyval) :=
  choice ← first_choice completion;
  output ← parse_output func_spec choice;
  '(in_tokens, out_tokens) ← token_counts completion;
  let info := info_dict completion in
  mret (output, req_time, in_tokens, out_tokens, info).

(** Lines 39-108.  [convert_system_to_user] is accepted and not used. *)
Definition query (system_message user_message : option string)
    (func_spec : option FunctionSpec) (convert_system_to_user : bool)
    (model_kwargs : gmap string pyval)
  : M (pyval * spec_float * Z * Z * gmap string pyval) :=
  '(completion, req_time) ←
    request_completion system_message user_message func_spec model_kwargs;
  read_completion func_spec completion req_time.

(** One call of [query] by the surrounding program, whatever its
    arguments and whether it returns or raises. *)
Inductive query_step : process → process → Prop :=
| QueryStep system_message user_message func_spec convert_system_to_user
    model_kwargs p :
    query_step p
      (query system_message user_message func_spec convert_system_to_user
         model_kwargs p).2.

(** The part of the process that only [_setup_openrouter_client]
    writes. *)
Definition setup_state (p : process)
  : bool * option Client * gmap string string
    * list (string * option string * Z) :=
  (once_done p, _client p, environ p, client_inits p).

Definition keeps {X A : Type} (f : process → X) (m : M A) : Prop :=
  ∀ p, f (m p).2 = f p.

(** The invariant of a process started from [initial_process env]. *)
Definition initialised_once (env : gmap string string) (p : process) : Prop :=
  environ p = env
  ∧ ((once_done p = false ∧ client_inits p = [])
     ∨ (once_done p = true ∧ client_inits p = [the_client_init env])).

End Backend.

(** ** Sample collaborators

    Concrete collaborators on which [query] can be run.  The theorems
    below hold for every choice of collaborators; these serve the
    examples. *)

Record sample_client : Type := {
  base_url : string;
  api_key : string;
  max_retries : Z;
}.

(** The error of the OpenAI constructor when it finds no key. *)
Definition missing_key_error : exn :=
  Exn (OtherError "OpenAIError")
    ("The api_key client option must be set either by passing "
     +:+ "api_key to the client or by setting the OPENAI_API_KEY "
     +:+ "environment variable").

(** A constructor that, like the OpenAI one, refuses a missing key. *)
Definition sample_OpenAI (url : string) (key : option string) (retries : Z)
  : exn + sample_client :=
  match key with
  | Some k => inr {| base_url := url; api_key := k; max_retries := retries |}
  | None => inl missing_key_error
  end.

(** A clock whose successive readings are 1.0, 1.5, 2.0 and 4.0 in
    binary64, then 8.0 for ever. *)
Definition sample_time (n : nat) : spec_float :=
  nth n [S754_finite false 4503599627370496 (-52);
         S754_finite false 6755399441055744 (-52);
         S754_finite false 4503599627370496 (-51);
         S754_finite false 4503599627370496 (-50)]
    (S754_finite false 4503599627370496 (-49)).

(** A remote that answers the [n]-th completion call with the [n]-th
    entry of a script, each entry an outcome and the texts logged for the
    attempts retried before it. *)
Definition retrying (script : list ((exn + ChatCompletion) * list string))
    (client : sample_client) (retry : list string) (req : request)
    (n now : nat) : (exn + ChatCompletion) * list string :=
  match script !! n with
  | Some r => r
  | None =>
      (inl (Exn (OtherError "APIStatusError") "no scripted response"), [])
  end.

(** The same with no attempt retried. *)
Definition scripted (script : list (exn + ChatCompletion))
  : sample_client → list string → request → nat → nat
    → (exn + ChatCompletion) * list string :=
  retrying ((λ r, (r, [])) <$> script).

(** The argument string [{"x":1}]. *)
Definition x1_arguments : string :=
  "{" +:+ String "034" "x" +:+ String "034" ":1}".

(** A decoder that knows the value of [x1_arguments] and rejects every
    other string the way [json.loads] rejects text that starts with no
    JSON value. *)
Definition sample_json_loads (s : string) : exn + pyval :=
  if String.eqb s x1_arguments then inr (PDict {[ "x" := PInt 1 ]})
  else inl (Exn JSONDecodeError "Expecting value: line 1 column 1 (char 0)").

Definition sample_message_str (m : ChatCompletionMessage) : string :=
  "ChatCompletionMessage(...)".

(** Sample responses: a text answer and a call of the tool [lookup]. *)
Definition text_choice (text : option string) : Choice :=
  {| message := {| content := text; tool_calls := None |} |}.

Definition text_completion (text : option string) : ChatCompletion :=
  {| choices := [text_choice text];
     usage := Some {| prompt_tokens := 3; completion_tokens := 1 |};
     system_fingerprint := None;
     model := "openai/gpt-4o";
     created := 1700000000 |}.

Definition calls_choice (calls : option (list ToolCall)) : Choice :=
  {| message := {| content := None; tool_calls := calls |} |}.

Definition tool_completion (calls : option (list ToolCall)) : ChatCompletion :=
  {| choices := [calls_choice calls];
     usage := Some {| prompt_tokens := 12; completion_tokens := 7 |};
     system_fingerprint := Some "fp_1";
     model := "openai/gpt-4o";
     created := 1700000000 |}.

Definition call_of (f args : string) : ToolCall :=
  {| function := {| fn_name := f; arguments := args |} |}.

Definition lookup_spec : FunctionSpec :=
  {| name := "lookup";
     as_openai_tool_dict :=
       PDict {[ "type" := PStr "function";
                "function" := PDict {[ "name" := PStr "lookup" ]} ]};
     openai_tool_choice_dict :=
       PDict {[ "type" := PStr "function";
                "function" := PDict {[ "name" := PStr "lookup" ]} ]} |}.

Definition sample_environ : gmap string string :=
  {[ "OPENROUTER_API_KEY" := "sk-or-0" ]}.

(** Sample keyword arguments: three that are set, one of them to a falsy
    value, and one that is [None]. *)
Definition sample_kwargs : gmap string pyval :=
  {[ "model" := PStr "openai/gpt-4o";
     "temperature" := PInt 0;
     "max_tokens" := PNone ]}.

(** Four falsy values that are not [None], and one [None]. *)
Definition falsy_kwargs : gmap string pyval :=
  {[ "temperature" := PInt 0;
     "top_p" := PFloat (S754_zero false);
     "stop" := PStr "";
     "stream" := PBool false;
     "seed" := PNone ]}.

Definition sample_collaborators (script : list (exn + ChatCompletion))
  : Collaborators :=
  {| Client := sample_client;
     openai_OpenAI := sample_OpenAI;
     time_time := sample_time;
     backoff_create := scripted script;
     json_loads := sample_json_loads;
     message_str := sample_message_str |}.

(** ** Views used in the further properties *)

(** The request that a call builds from its arguments. *)
Definition request_of (system_message user_message : option string)
    (func_spec : option FunctionSpec) (model_kwargs : gmap string pyval)
  : request :=
  {| req_messages := build_messages system_message user_message;
     req_extra_body := extra_body;
     req_kwargs := forwarded_kwargs func_spec model_kwargs |}.

(** The information record written at line 54. *)
Definition tool_calling_records (func_spec : option FunctionSpec)
  : list log_record :=
  match func_spec with
  | Some fs =>
      [LogRecord INFO ("Using OpenRouter tool calling for " +:+ name fs)]
  | None => []
  end.

(** The information record written at line 92. *)
Definition parsed_records (func_spec : option FunctionSpec)
  : list log_record :=
  match func_spec with
  | Some fs =>
      [LogRecord INFO
         ("Successfully parsed tool call response for " +:+ name fs)]
  | None => []
  end.

(** A completion cut down to its first choice and that choice's first
    tool call. *)
Definition first_only (completion : ChatCompletion) : ChatCompletion :=
  {| choices :=
       match choices completion with
       | [] => []
       | choice :: _ =>
           [ {| message :=
                  {| content := content (message choice);
                     tool_calls :=
                       match tool_calls (message choice) with
                       | Some (tool_call :: _) => Some [tool_call]
                       | other => other
                       end |} |} ]
       end;
     usage := usage completion;
     system_fingerprint := system_fingerprint completion;
     model := model completion;
     created := created completion |}.

(** ** Further sample collaborators *)

(** A completion with no choice and no usage. *)
Definition bare_completion : ChatCompletion :=
  {| choices := [];
     usage := None;
     system_fingerprint := None;
     model := "openai/gpt-4o";
     created := 1700000000 |}.

(** An argument string of two thousand opening brackets: not valid JSON,
    and nested deeper than [json.loads] can follow. *)
Definition deep_arguments : string :=
  string_of_list_ascii (repeat "["%char 2000).

(** A decoder that raises [RecursionError] on [deep_arguments], as
    [json.loads] does, and is [sample_json_loads] elsewhere. *)
Definition recursion_error : exn :=
  Exn (OtherError "RecursionError")
    ("maximum recursion depth exceeded while decoding a JSON array "
     +:+ "from a unicode string").

Definition deep_json_loads (s : string) : exn + pyval :=
  if String.eqb s deep_arguments then inl recursion_error
  else sample_json_loads s.

Definition deep_collaborators (script : list (exn + ChatCompletion))
  : Collaborators :=
  {| Client := sample_client;
     openai_OpenAI := sample_OpenAI;
     time_time := sample_time;
     backoff_create := scripted script;
     json_loads := deep_json_loads;
     message_str := sample_message_str |}.

(** Collaborators whose remote retries: the script gives, for each
    completion call, its outcome and the texts logged for the attempts
    retried before it. *)
Definition retrying_collaborators
    (script : list ((exn + ChatCompletion) * list string)) : Collaborators :=
  {| Client := sample_client;
     openai_OpenAI := sample_OpenAI;
     time_time := sample_time;
     backoff_create := retrying script;
     json_loads := sample_json_loads;
     message_str := sample_message_str |}.

(** The text that the helper logs for an attempt that ran into the rate
    limit. *)
Definition rate_limit_text : string :=
  "Backoff exception: Error code: 429".

(** The client that [sample_OpenAI] builds in [sample_environ]. *)
Definition the_sample_client : sample_client :=
  {| base_url := "https://openrouter.ai/api/v1";
     api_key := "sk-or-0";
     max_retries := 0 |}.

(** An error of the remote that is not retried. *)
Definition authentication_error : exn :=
  Exn (OtherError "AuthenticationError") "Error code: 401".

(** * Properties *)

Section Properties.

Context `{Collaborators}.

(** ** Messages *)

Lemma build_messages_app system_message user_message :
  build_messages system_message user_message
  = user_entries system_message ++ user_entries user_message.
Proof.
  unfold build_messages.
  destruct system_message as [s|], user_message as [u|]; cbn [py_of_optstr].
  all: rewrite ?filter_cons, ?filter_nil; cbn [truthy user_entries].
  all: repeat case_decide.
  all: repeat match goal with
         | H : negb (String.eqb ?x "") = true |- _ =>
             apply negb_true_iff in H; rewrite H
         | H : ¬ negb (String.eqb ?x "") = true |- _ =>
             apply not_true_is_false, negb_false_iff in H; rewrite H
         end.
  all: try reflexivity; try discriminate; try congruence.
Qed.

Lemma user_entries_role text :
  Forall (λ entry, role_of entry = Some (PStr "user")) (user_entries text).
Proof.
  destruct text as [s|]; cbn; [destruct (String.eqb s "")|]; auto.
Qed.

(** C2: the message list is the system-derived entry, when the system
    message is non-empty, followed by the user-derived entry, when the
    user message is non-empty; every entry has role [user]; the list is
    empty when both inputs are empty or absent. *)
Theorem build_messages_user_roles_in_order system_message user_message :
  build_messages system_message user_message
  = user_entries system_message ++ user_entries user_message
  ∧ Forall (λ entry, role_of entry = Some (PStr "user"))
      (build_messages system_message user_message)
  ∧ ((system_message = None ∨ system_message = Some "")
     ∧ (user_message = None ∨ user_message = Some "")
     → build_messages system_message user_message = []).
Proof.
  rewrite build_messages_app. split; [reflexivity|]. split.
  - apply Forall_app; split; apply user_entries_role.
  - intros [[->| ->] [->| ->]]; reflexivity.
Qed.

(** ** The two phases of [query] *)

Lemma query_after_request system_message user_message func_spec
    convert_system_to_user model_kwargs p completion req_time p1 :
  request_completion system_message user_message func_spec model_kwargs p
  = (inr (completion, req_time), p1) →
  query system_message user_message func_spec convert_system_to_user
    model_kwargs p
  = read_completion func_spec completion req_time p1.
Proof.
  intros Hreq. unfold query, mbind, M_bind. rewrite Hreq. reflexivity.
Qed.

Lemma query_returns_inv system_message user_message func_spec
    convert_system_to_user model_kwargs p r p' :
  query system_message user_message func_spec convert_system_to_user
    model_kwargs p = (inr r, p') →
  ∃ completion req_time p1,
    request_completion system_message user_message func_spec model_kwargs p
    = (inr (completion, req_time), p1)
    ∧ read_completion func_spec completion req_time p1 = (inr r, p').
Proof.
  unfold query, mbind, M_bind.
  destruct (request_completion _ _ _ _ p) as [[e|[completion req_time]] p1];
    [discriminate|].
  intros Hread. eauto.
Qed.

(** What [read_completion] does once the first choice is known. *)
Lemma read_completion_choice func_spec completion req_time choice rest p :
  choices completion = choice :: rest →
  read_completion func_spec completion req_time p
  = match parse_output func_spec choice p with
    | (inr output, p') =>
        match usage completion with
        | Some u =>
            (inr (output, req_time, prompt_tokens u, completion_tokens u,
                  info_dict completion), p')
        | None =>
            (inl (Exn AttributeError
                    "'NoneType' object has no attribute 'prompt_tokens'"),
             p')
        end
    | (inl e, p') => (inl e, p')
    end.
Proof.
  intros Hch. unfold read_completion, first_choice, token_counts.
  rewrite Hch. unfold mbind, M_bind, mret, M_ret.
  destruct (parse_output func_spec choice p) as [[e|output] p'];
    [reflexivity|].
  destruct (usage completion); reflexivity.
Qed.

Lemma read_completion_returns_inv func_spec completion req_time p r p' :
  read_completion func_spec completion req_time p = (inr r, p') →
  ∃ choice rest output u,
    choices completion = choice :: rest
    ∧ parse_output func_spec choice p = (inr output, p')
    ∧ usage completion = Some u
    ∧ r = (output, req_time, prompt_tokens u, completion_tokens u,
           info_dict completion).
Proof.
  destruct (choices completion) as [|choice rest] eqn:Hch.
  - unfold read_completion, first_choice. rewrite Hch. discriminate.
  - rewrite (read_completion_choice _ _ _ _ _ _ Hch).
    destruct (parse_output func_spec choice p) as [[e|output] p1] eqn:Hout;
      [discriminate|].
    destruct (usage completion) as [u|] eqn:Hu; [|discriminate].
    intros [= <- <-]. exists choice, rest, output, u. auto.
Qed.

(** ** Reading the response *)

Lemma parse_output_text choice p :
  parse_output None choice p
  = (inr (py_of_optstr (content (message choice))), p).
Proof. reflexivity. Qed.

Lemma parse_output_no_tool_call fs choice p :
  tool_calls (message choice) = None ∨ tool_calls (message choice) = Some [] →
  parse_output (Some fs) choice p
  = (inl (Exn AssertionError
            ("tool_calls is empty, not a tool call response: "
             +:+ message_str (message choice))), p).
Proof. unfold parse_output. intros [-> | ->]; reflexivity. Qed.

Lemma parse_output_mismatch fs choice tool_call others p :
  tool_calls (message choice) = Some (tool_call :: others) →
  fn_name (function tool_call) ≠ name fs →
  parse_output (Some fs) choice p
  = (inl (Exn AssertionError
            ("Function name mismatch: expected " +:+ name fs
             +:+ ", got " +:+ fn_name (function tool_call))), p).
Proof.
  intros Htc Hne. unfold parse_output. rewrite Htc.
  apply String.eqb_neq in Hne. rewrite Hne. reflexivity.
Qed.

Lemma parse_output_match fs choice tool_call others p :
  tool_calls (message choice) = Some (tool_call :: others) →
  fn_name (function tool_call) = name fs →
  parse_output (Some fs) choice p
  = match json_loads (arguments (function tool_call)) with
    | inr output =>
        (inr output,
         (logger_info ("Successfully parsed tool call response for "
                       +:+ name fs) p).2)
    | inl e =>
        (inl e,
         if is_JSONDecodeError e then
           (logger_error ("Error decoding function arguments: "
                          +:+ arguments (function tool_call)) p).2
         else p)
    end.
Proof.
  intros Htc Heq. unfold parse_output. rewrite Htc.
  apply String.eqb_eq in Heq. rewrite Heq. cbn [negb].
  destruct (json_loads _) as [e|output]; [|reflexivity].
  destruct (is_JSONDecodeError e); reflexivity.
Qed.

(** A value is only produced from a first tool call that carries the
    requested name. *)
Lemma parse_output_returns_inv fs choice p output p' :
  parse_output (Some fs) choice p = (inr output, p') →
  ∃ tool_call others,
    tool_calls (message choice) = Some (tool_call :: others)
    ∧ fn_name (function tool_call) = name fs
    ∧ json_loads (arguments (function tool_call)) = inr output.
Proof.
  destruct (tool_calls (message choice)) as [[|tool_call others]|] eqn:Htc.
  - rewrite parse_output_no_tool_call by auto. discriminate.
  - destruct (String.eqb_spec (fn_name (function tool_call)) (name fs))
      as [Heq|Hne].
    + rewrite (parse_output_match _ _ _ _ _ Htc Heq).
      destruct (json_loads _) as [e|v] eqn:Hjson; [discriminate|].
      intros [= <- _]. exists tool_call, others. auto.
    + rewrite (parse_output_mismatch _ _ _ _ _ Htc Hne). discriminate.
  - rewrite parse_output_no_tool_call by auto. discriminate.
Qed.

(** C1: with a function specification, a response whose first choice has
    no tool calls, or whose first tool call names another function, makes
    [query] raise an [AssertionError] and return nothing; so a call that
    returns a value had a first tool call with the requested name. *)
Theorem query_asserts_matching_tool_call system_message user_message fs
    convert_system_to_user model_kwargs p completion req_time p1
    choice rest :
  request_completion system_message user_message (Some fs) model_kwargs p
  = (inr (completion, req_time), p1) →
  choices completion = choice :: rest →
  (tool_calls (message choice) = None
   ∨ tool_calls (message choice) = Some []
   ∨ (∃ tool_call others,
        tool_calls (message choice) = Some (tool_call :: others)
        ∧ fn_name (function tool_call) ≠ name fs)
   → ∃ text,
       query system_message user_message (Some fs) convert_system_to_user
         model_kwargs p = (inl (Exn AssertionError text), p1))
  ∧ (∀ r p',
       query system_message user_message (Some fs) convert_system_to_user
         model_kwargs p = (inr r, p') →
       ∃ tool_call others,
         tool_calls (message choice) = Some (tool_call :: others)
         ∧ fn_name (function tool_call) = name fs).
Proof.
  intros Hreq Hch.
  rewrite (query_after_request _ _ _ convert_system_to_user _ _ _ _ _ Hreq).
  rewrite (read_completion_choice _ _ _ _ _ _ Hch). split.
  - intros [Hnone|[Hnil|(tool_call & others & Htc & Hne)]].
    + rewrite parse_output_no_tool_call by auto. eexists. reflexivity.
    + rewrite parse_output_no_tool_call by auto. eexists. reflexivity.
    + rewrite (parse_output_mismatch _ _ _ _ _ Htc Hne).
      eexists. reflexivity.
  - intros r p'.
    destruct (parse_output (Some fs) choice p1) as [[e|output] p2] eqn:Hout;
      [discriminate|].
    intros _. apply parse_output_returns_inv in Hout.
    destruct Hout as (tool_call & others & Htc & Heq & _). eauto.
Qed.

(** C3: with a function specification, when the first tool call carries
    the requested name and [json.loads] decodes its argument string, the
    output of every returning call is the decoded value, and the call
    returns whenever the response carries its usage. *)
Theorem query_output_is_decoded_arguments system_message user_message fs
    convert_system_to_user model_kwargs p completion req_time p1
    choice rest tool_call others decoded :
  request_completion system_message user_message (Some fs) model_kwargs p
  = (inr (completion, req_time), p1) →
  choices completion = choice :: rest →
  tool_calls (message choice) = Some (tool_call :: others) →
  fn_name (function tool_call) = name fs →
  json_loads (arguments (function tool_call)) = inr decoded →
  (∀ output elapsed in_tokens out_tokens info p',
     query system_message user_message (Some fs) convert_system_to_user
       model_kwargs p
     = (inr (output, elapsed, in_tokens, out_tokens, info), p') →
     output = decoded)
  ∧ (∀ u, usage completion = Some u →
     ∃ p',
       query system_message user_message (Some fs) convert_system_to_user
         model_kwargs p
       = (inr (decoded, req_time, prompt_tokens u, completion_tokens u,
               info_dict completion), p')).
Proof.
  intros Hreq Hch Htc Hname Hjson.
  rewrite (query_after_request _ _ _ convert_system_to_user _ _ _ _ _ Hreq).
  rewrite (read_completion_choice _ _ _ _ _ _ Hch).
  rewrite (parse_output_match _ _ _ _ _ Htc Hname), Hjson. split.
  - intros output elapsed in_tokens out_tokens info p'.
    destruct (usage completion); [|discriminate]. congruence.
  - intros u ->. eauto.
Qed.

(** C4: without a function specification, the output of every returning
    call is the content of the first choice's message, [None] included,
    and the call returns whenever the response carries its usage. *)
Theorem query_output_is_message_content system_message user_message
    convert_system_to_user model_kwargs p completion req_time p1
    choice rest :
  request_completion system_message user_message None model_kwargs p
  = (inr (completion, req_time), p1) →
  choices completion = choice :: rest →
  (∀ output elapsed in_tokens out_tokens info p',
     query system_message user_message None convert_system_to_user
       model_kwargs p
     = (inr (output, elapsed, in_tokens, out_tokens, info), p') →
     output = py_of_optstr (content (message choice)))
  ∧ (∀ u, usage completion = Some u →
     query system_message user_message None convert_system_to_user
       model_kwargs p
     = (inr (py_of_optstr (content (message choice)), req_time,
             prompt_tokens u, completion_tokens u, info_dict completion),
        p1)).
Proof.
  intros Hreq Hch.
  rewrite (query_after_request _ _ _ convert_system_to_user _ _ _ _ _ Hreq).
  rewrite (read_completion_choice _ _ _ _ _ _ Hch), parse_output_text.
  split.
  - intros output elapsed in_tokens out_tokens info p'.
    destruct (usage completion); [|discriminate]. congruence.
  - intros u ->. reflexivity.
Qed.

(** C5, as the code has it: with a function specification, when the
    first tool call carries the requested name and [json.loads] raises on
    its argument string, [query] raises the same exception; when that
    exception is a [JSONDecodeError], [query] has first logged one error
    record, whose text ends with the argument string, and when it is any
    other exception nothing is logged for it. *)
Theorem query_logs_and_reraises_decode_error system_message user_message fs
    convert_system_to_user model_kwargs p completion req_time p1
    choice rest tool_call others e :
  request_completion system_message user_message (Some fs) model_kwargs p
  = (inr (completion, req_time), p1) →
  choices completion = choice :: rest →
  tool_calls (message choice) = Some (tool_call :: others) →
  fn_name (function tool_call) = name fs →
  json_loads (arguments (function tool_call)) = inl e →
  ∃ p',
    query system_message user_message (Some fs) convert_system_to_user
      model_kwargs p = (inl e, p')
    ∧ (exn_cls e = JSONDecodeError →
       records p'
       = records p1
         ++ [LogRecord ERROR ("Error decoding function arguments: "
                              +:+ arguments (function tool_call))])
    ∧ (exn_cls e ≠ JSONDecodeError → p' = p1).
Proof.
  intros Hreq Hch Htc Hname Hjson.
  rewrite (query_after_request _ _ _ convert_system_to_user _ _ _ _ _ Hreq).
  rewrite (read_completion_choice _ _ _ _ _ _ Hch).
  rewrite (parse_output_match _ _ _ _ _ Htc Hname), Hjson.
  unfold is_JSONDecodeError. eexists. split; [reflexivity|].
  destruct (exn_cls e); split; intros Hcls; try reflexivity;
    try discriminate; contradiction.
Qed.

(** C7: a call that returns hands back the prompt and completion token
    counts of the response's usage, and a metadata dictionary whose keys
    are exactly [system_fingerprint], [model] and [created], each bound to
    that field of the response. *)
Theorem query_returns_usage_and_metadata system_message user_message
    func_spec convert_system_to_user model_kwargs p
    output elapsed in_tokens out_tokens info p' :
  query system_message user_message func_spec convert_system_to_user
    model_kwargs p
  = (inr (output, elapsed, in_tokens, out_tokens, info), p') →
  ∃ completion req_time p1 u,
    request_completion system_message user_message func_spec model_kwargs p
    = (inr (completion, req_time), p1)
    ∧ usage completion = Some u
    ∧ in_tokens = prompt_tokens u
    ∧ out_tokens = completion_tokens u
    ∧ dom info = {[ "system_fingerprint"; "model"; "created" ]}
    ∧ info !! "system_fingerprint"
      = Some (py_of_optstr (system_fingerprint completion))
    ∧ info !! "model" = Some (PStr (model completion))
    ∧ info !! "created" = Some (PInt (created completion)).
Proof.
  intros Hq. apply query_returns_inv in Hq.
  destruct Hq as (completion & req_time & p1 & Hreq & Hread).
  apply read_completion_returns_inv in Hread.
  destruct Hread as (choice & rest & out & u & _ & _ & Hu & Hr).
  injection Hr as -> -> -> -> ->.
  exists completion, req_time, p1, u. split_and!; done.
Qed.

(** C9: two calls of [query] that differ only in
    [convert_system_to_user] raise or return the same thing and leave the
    process, with its list of requests and its log, in the same state. *)
Theorem query_ignores_convert_system_to_user system_message user_message
    func_spec model_kwargs (b1 b2 : bool) p :
  query system_message user_message func_spec b1 model_kwargs p
  = query system_message user_message func_spec b2 model_kwargs p.
Proof. reflexivity. Qed.

(** ** What each step leaves alone *)

Lemma keeps_ret {X A} (f : process → X) (a : A) : keeps f (mret a).
Proof. intros p. reflexivity. Qed.

Lemma keeps_raise {X A} (f : process → X) (e : exn) :
  keeps f (raise e : M A).
Proof. intros p. reflexivity. Qed.

Lemma bind_snd {X A B} (f : process → X) (m : M A) (k : A → M B) p :
  (∀ a, keeps f (k a)) → f ((m ≫= k) p).2 = f (m p).2.
Proof.
  intros Hk. unfold mbind, M_bind.
  destruct (m p) as [[e|a] p1]; [reflexivity|]. apply Hk.
Qed.

Lemma keeps_bind {X A B} (f : process → X) (m : M A) (k : A → M B) :
  keeps f m → (∀ a, keeps f (k a)) → keeps f (m ≫= k).
Proof. intros Hm Hk p. rewrite bind_snd by exact Hk. apply Hm. Qed.

Lemma keeps_setup_log lvl text : keeps setup_state (log lvl text).
Proof. intros p. reflexivity. Qed.

Lemma keeps_requests_log lvl text : keeps requests (log lvl text).
Proof. intros p. reflexivity. Qed.

Lemma keeps_setup_time_now : keeps setup_state time_now.
Proof. intros p. reflexivity. Qed.

Lemma keeps_requests_time_now : keeps requests time_now.
Proof. intros p. reflexivity. Qed.

Lemma keeps_setup_completions_create messages filtered_kwargs :
  keeps setup_state (completions_create messages filtered_kwargs).
Proof.
  intros p. unfold completions_create.
  destruct (_client p) eqn:Hclient; [|reflexivity].
  destruct (call_keywords _ _); [reflexivity|].
  destruct (backoff_create _ _ _ _ _) as [outcome retried].
  unfold setup_state. cbn. rewrite Hclient. reflexivity.
Qed.

Lemma keeps_requests_setup : keeps requests _setup_openrouter_client.
Proof.
  intros p. unfold _setup_openrouter_client, once.
  destruct (once_done p); [reflexivity|]. cbn.
  destruct (openai_OpenAI _ _ _); reflexivity.
Qed.

Lemma keeps_first_choice {X} (f : process → X) completion :
  keeps f (first_choice completion).
Proof.
  unfold first_choice.
  destruct (choices completion); [apply keeps_raise|apply keeps_ret].
Qed.

Lemma keeps_token_counts {X} (f : process → X) completion :
  keeps f (token_counts completion).
Proof.
  unfold token_counts.
  destruct (usage completion); [apply keeps_ret|apply keeps_raise].
Qed.

Create HintDb keeps discriminated.

#[local] Hint Resolve keeps_ret keeps_raise keeps_bind keeps_setup_log
  keeps_requests_log keeps_setup_time_now keeps_requests_time_now
  keeps_setup_completions_create keeps_requests_setup keeps_first_choice
  keeps_token_counts : keeps.

Ltac keeps_cases :=
  repeat first
    [ progress intros
    | progress unfold logger_info, logger_error
    | match goal with
      | |- keeps _ (match ?x with _ => _ end) => destruct x
      | |- keeps _ (if ?b then _ else _) => destruct b
      | |- keeps _ (let '(_, _) := ?x in _) => destruct x
      end
    | solve [auto with keeps]
    | apply keeps_bind ].

Lemma keeps_parse_output {X} (f : process → X) func_spec choice :
  (∀ lvl text, keeps f (log lvl text)) →
  keeps f (parse_output func_spec choice).
Proof. intros Hlog. unfold parse_output. keeps_cases. Qed.

Lemma keeps_read_completion {X} (f : process → X) func_spec completion
    req_time :
  (∀ lvl text, keeps f (log lvl text)) →
  keeps f (read_completion func_spec completion req_time).
Proof.
  intros Hlog. unfold read_completion.
  pose proof (keeps_parse_output f func_spec) as Hparse.
  keeps_cases.
Qed.

(** ** Client initialisation *)

Lemma setup_again p :
  once_done p = true →
  setup_state (_setup_openrouter_client p).2 = setup_state p.
Proof.
  intros Hdone. unfold _setup_openrouter_client, once. rewrite Hdone.
  reflexivity.
Qed.

Lemma setup_first p :
  once_done p = false →
  let p' := (_setup_openrouter_client p).2 in
  once_done p' = true
  ∧ environ p' = environ p
  ∧ client_inits p' = client_inits p ++ [the_client_init (environ p)].
Proof.
  intros Hdone. unfold _setup_openrouter_client, once. rewrite Hdone. cbn.
  destruct (openai_OpenAI _ _ _); cbn; auto.
Qed.

Lemma query_setup_state system_message user_message func_spec
    convert_system_to_user model_kwargs p :
  setup_state
    (query system_message user_message func_spec convert_system_to_user
       model_kwargs p).2
  = setup_state (_setup_openrouter_client p).2.
Proof.
  unfold query. rewrite bind_snd.
  2:{ intros [completion req_time]. apply keeps_read_completion.
      apply keeps_setup_log. }
  unfold request_completion. rewrite bind_snd; [reflexivity|].
  keeps_cases.
Qed.

Lemma initialised_once_initial env : initialised_once env (initial_process env).
Proof. split; [reflexivity|]. left. split; reflexivity. Qed.

Lemma initialised_once_step env p p' :
  initialised_once env p → query_step p p' → initialised_once env p'.
Proof.
  intros [Henv Hinit] Hstep. destruct Hstep.
  pose proof (query_setup_state system_message user_message func_spec
                convert_system_to_user model_kwargs p) as Hq.
  set (q := (query _ _ _ _ _ p).2) in *.
  unfold initialised_once.
  destruct Hinit as [[Hdone Hnil]|[Hdone Hone]].
  - destruct (setup_first p Hdone) as (Hd' & He' & Hi').
    unfold setup_state in Hq. rewrite Hd', He', Hi' in Hq.
    injection Hq as -> _ -> ->. rewrite Hnil, Henv. auto.
  - rewrite (setup_again p Hdone) in Hq. unfold setup_state in Hq.
    injection Hq as -> _ -> ->. auto.
Qed.

(** C8: in a process that starts with the module freshly imported and
    then calls [query] any number of times, the body of
    [_setup_openrouter_client] has run at most once, and if it ran, it
    built the client from the fixed base URL and the API key of the
    environment. *)
Theorem client_initialised_at_most_once env p :
  rtc query_step (initial_process env) p →
  length (client_inits p) ≤ 1
  ∧ ∀ init, init ∈ client_inits p → init = the_client_init env.
Proof.
  intros Hrun.
  assert (initialised_once env p) as [_ Hinit].
  { revert p Hrun. apply (rtc_ind_r (initialised_once env)).
    - apply initialised_once_initial.
    - intros p p' _ Hstep IH. exact (initialised_once_step _ _ _ IH Hstep). }
  destruct Hinit as [[_ ->]|[_ ->]]; cbn.
  - split; [lia|]. intros init Hin. inversion Hin.
  - split; [lia|]. intros init Hin. apply list_elem_of_singleton in Hin.
    exact Hin.
Qed.

(** ** Keyword arguments *)

Lemma notnone_true v : notnone v = true ↔ v ≠ PNone.
Proof. destruct v; cbn; split; congruence. Qed.

Lemma select_values_notnone_Some model_kwargs k v :
  select_values notnone model_kwargs !! k = Some v
  ↔ model_kwargs !! k = Some v ∧ v ≠ PNone.
Proof.
  unfold select_values. rewrite map_lookup_filter_Some. cbn.
  rewrite notnone_true. reflexivity.
Qed.

Lemma select_values_notnone_None model_kwargs k :
  select_values notnone model_kwargs !! k = None
  ↔ model_kwargs !! k = None ∨ model_kwargs !! k = Some PNone.
Proof.
  destruct (select_values notnone model_kwargs !! k) as [v|] eqn:Hsel.
  - apply select_values_notnone_Some in Hsel as [Hk Hv].
    split; [discriminate|]. intros [Hnone|Hnone]; congruence.
  - split; [intros _|reflexivity].
    destruct (model_kwargs !! k) as [v|] eqn:Hk; [|auto].
    destruct (decide (notnone v = true)) as [Hv|Hv].
    + apply notnone_true in Hv.
      assert (select_values notnone model_kwargs !! k = Some v) as Hsome
        by (apply select_values_notnone_Some; auto).
      congruence.
    + destruct v; cbn in Hv; try congruence. auto.
Qed.

Lemma forwarded_kwargs_other func_spec model_kwargs k :
  ¬ set_from_func_spec func_spec k →
  forwarded_kwargs func_spec model_kwargs !! k
  = select_values notnone model_kwargs !! k.
Proof.
  intros Hk. unfold forwarded_kwargs, inject_tool.
  destruct func_spec as [fs|]; [|reflexivity].
  rewrite !lookup_insert_ne; [reflexivity| |].
  - intros <-. apply Hk. split; [discriminate|auto].
  - intros <-. apply Hk. split; [discriminate|auto].
Qed.

Lemma duplicate_keyword_None filtered_kwargs :
  duplicate_keyword filtered_kwargs = None
  ↔ ("messages" ∉ dom filtered_kwargs) ∧ ("extra_body" ∉ dom filtered_kwargs).
Proof.
  unfold duplicate_keyword. repeat case_bool_decide; split; try discriminate.
  all: tauto.
Qed.

(** A call of [query] makes at most one completion call, with the
    messages of lines 57-61, the routing directive and the forwarded
    keyword arguments, and makes none when these name [messages] or
    [extra_body]. *)
Lemma query_requests system_message user_message func_spec
    convert_system_to_user model_kwargs p :
  let p' :=
    (query system_message user_message func_spec convert_system_to_user
       model_kwargs p).2 in
  requests p' = requests p
  ∨ (duplicate_keyword (forwarded_kwargs func_spec model_kwargs) = None
     ∧ requests p'
       = requests p
         ++ [ {| req_messages := build_messages system_message user_message;
                 req_extra_body := extra_body;
                 req_kwargs := forwarded_kwargs func_spec model_kwargs |} ]).
Proof.
  cbn zeta. unfold query. rewrite bind_snd.
  2:{ intros [completion req_time]. apply keeps_read_completion.
      apply keeps_requests_log. }
  pose proof (keeps_requests_setup p) as Hsetup.
  unfold request_completion, mbind, M_bind.
  destruct (_setup_openrouter_client p) as [[e|[]] p0]; cbn in Hsetup;
    [left; exact Hsetup|].
  rewrite <- Hsetup. clear Hsetup p.
  unfold forwarded_kwargs, completions_create, call_keywords.
  destruct func_spec as [fs|]; cbn.
  all: destruct (_client p0); [|left; reflexivity].
  all: destruct (duplicate_keyword _) eqn:Hdup; [left; reflexivity|].
  all: right; split; [reflexivity|].
  all: destruct (backoff_create _ _ _ _ _) as [[e|completion] retried];
    reflexivity.
Qed.

Lemma query_request_inv system_message user_message func_spec
    convert_system_to_user model_kwargs p req :
  requests
    (query system_message user_message func_spec convert_system_to_user
       model_kwargs p).2
  = requests p ++ [req] →
  duplicate_keyword (forwarded_kwargs func_spec model_kwargs) = None
  ∧ req = {| req_messages := build_messages system_message user_message;
             req_extra_body := extra_body;
             req_kwargs := forwarded_kwargs func_spec model_kwargs |}.
Proof.
  intros Hsent.
  destruct (query_requests system_message user_message func_spec
              convert_system_to_user model_kwargs p) as [Hsame|[Hdup Hreq]].
  - rewrite Hsame in Hsent. apply (f_equal length) in Hsent.
    rewrite length_app in Hsent. cbn in Hsent. lia.
  - rewrite Hreq in Hsent. apply app_inj_tail in Hsent as [_ <-]. auto.
Qed.

Lemma forwarded_kwargs_survivor func_spec model_kwargs k v :
  model_kwargs !! k = Some v → v ≠ PNone →
  k ∈ dom (forwarded_kwargs func_spec model_kwargs).
Proof.
  intros Hk Hv. apply elem_of_dom.
  assert (select_values notnone model_kwargs !! k = Some v) as Hsel
    by (apply select_values_notnone_Some; auto).
  unfold forwarded_kwargs, inject_tool. destruct func_spec as [fs|]; [|eauto].
  destruct (decide ("tool_choice" = k)) as [<-|Hne1];
    [rewrite lookup_insert_eq; eauto|].
  rewrite lookup_insert_ne by exact Hne1.
  destruct (decide ("tools" = k)) as [<-|Hne2];
    [rewrite lookup_insert_eq; eauto|].
  rewrite lookup_insert_ne by exact Hne2. eauto.
Qed.

(** C6, as the code has it: the filtering removes every parameter whose
    value is [None]; when the call reaches the completion request, every
    other parameter is in it with its value unchanged and no removed one
    is, the names [tools] and [tool_choice] apart when a function
    specification is given, which then supplies both; and the request is
    only reached when no remaining parameter is named [messages] or
    [extra_body]. *)
Theorem model_kwargs_filtered_then_forwarded system_message user_message
    func_spec convert_system_to_user model_kwargs p req :
  requests
    (query system_message user_message func_spec convert_system_to_user
       model_kwargs p).2
  = requests p ++ [req] →
  (∀ k, model_kwargs !! k = Some PNone →
        select_values notnone model_kwargs !! k = None)
  ∧ (∀ k, model_kwargs !! k = Some PNone →
          ¬ set_from_func_spec func_spec k → req_kwargs req !! k = None)
  ∧ (∀ k v, model_kwargs !! k = Some v → v ≠ PNone →
            ¬ set_from_func_spec func_spec k →
            req_kwargs req !! k = Some v)
  ∧ (∀ fs, func_spec = Some fs →
           req_kwargs req !! "tools" = Some (PList [as_openai_tool_dict fs])
           ∧ req_kwargs req !! "tool_choice"
             = Some (openai_tool_choice_dict fs))
  ∧ (∀ k v, k = "messages" ∨ k = "extra_body" →
            model_kwargs !! k = Some v → v = PNone).
Proof.
  intros Hsent. apply query_request_inv in Hsent as [Hdup ->]. cbn.
  split_and!.
  - intros k Hk. apply select_values_notnone_None. auto.
  - intros k Hk Hfree. rewrite forwarded_kwargs_other by exact Hfree.
    apply select_values_notnone_None. auto.
  - intros k v Hk Hv Hfree. rewrite forwarded_kwargs_other by exact Hfree.
    apply select_values_notnone_Some. auto.
  - intros fs ->. unfold forwarded_kwargs, inject_tool.
    rewrite lookup_insert_ne by discriminate.
    rewrite !lookup_insert_eq. auto.
  - intros k v Hname Hk. apply duplicate_keyword_None in Hdup as [Hm He].
    destruct v; try reflexivity.
    all: exfalso; destruct Hname as [-> | ->]; [apply Hm|apply He].
    all: eapply forwarded_kwargs_survivor; [exact Hk|discriminate].
Qed.

(** C10, as the code has it: the filtering removes a parameter exactly
    when its value is [None]; a parameter whose value is falsy and not
    [None] is kept by the filtering, and when the call reaches the
    completion request it is in it with its value unchanged, unless a
    function specification is given and the parameter is named [tools] or
    [tool_choice]. *)
Theorem falsy_kwargs_kept_and_forwarded system_message user_message
    func_spec convert_system_to_user model_kwargs p k v :
  model_kwargs !! k = Some v →
  v ≠ PNone →
  truthy v = false →
  (∀ k' v', model_kwargs !! k' = Some v' →
            (select_values notnone model_kwargs !! k' = None ↔ v' = PNone))
  ∧ select_values notnone model_kwargs !! k = Some v
  ∧ (∀ req,
       requests
         (query system_message user_message func_spec
            convert_system_to_user model_kwargs p).2
       = requests p ++ [req] →
       ¬ set_from_func_spec func_spec k →
       req_kwargs req !! k = Some v).
Proof.
  intros Hk Hv _. split_and!.
  - intros k' v' Hk'. rewrite select_values_notnone_None, Hk'.
    split; [intros [?|?]; congruence|intros ->; auto].
  - apply select_values_notnone_Some. auto.
  - intros req Hsent Hfree. apply query_request_inv in Hsent as [_ ->]. cbn.
    rewrite forwarded_kwargs_other by exact Hfree.
    apply select_values_notnone_Some. auto.
Qed.

(** ** The trace of a call *)

Lemma setup_frame p :
  let p0 := (_setup_openrouter_client p).2 in
  records p0 = records p ∧ requests p0 = requests p ∧ ticks p0 = ticks p.
Proof.
  unfold _setup_openrouter_client, once.
  destruct (once_done p); [auto|]. cbn.
  destruct (openai_OpenAI _ _ _); cbn; auto.
Qed.

(** What [request_completion] does after a set-up that did not raise. *)
Lemma request_completion_after_setup system_message user_message func_spec
    model_kwargs p p0 :
  _setup_openrouter_client p = (inr tt, p0) →
  request_completion system_message user_message func_spec model_kwargs p
  = let p1 :=
      {| once_done := once_done p0; _client := _client p0;
         environ := environ p0; client_inits := client_inits p0;
         records := records p0 ++ tool_calling_records func_spec;
         requests := requests p0; ticks := S (ticks p0) |} in
    match _client p0 with
    | None =>
        (inl (Exn AttributeError "'NoneType' object has no attribute 'chat'"),
         p1)
    | Some client =>
        match
          call_keywords (build_messages system_message user_message)
            (forwarded_kwargs func_spec model_kwargs)
        with
        | inl e => (inl e, p1)
        | inr req =>
            let call :=
              backoff_create client OPENAI_TIMEOUT_EXCEPTIONS req
                (length (requests p0)) (S (ticks p0)) in
            let logged :=
              records p0 ++ tool_calling_records func_spec
              ++ (LogRecord INFO <$> call.2) in
            match call.1 with
            | inl e =>
                (inl e,
                 {| once_done := once_done p0; _client := _client p0;
                    environ := environ p0; client_inits := client_inits p0;
                    records := logged;
                    requests := requests p0 ++ [req];
                    ticks := S (ticks p0) |})
            | inr completion =>
                (inr (completion,
                      SFsub 53 1024 (time_time (S (ticks p0)))
                        (time_time (ticks p0))),
                 {| once_done := once_done p0; _client := _client p0;
                    environ := environ p0; client_inits := client_inits p0;
                    records := logged;
                    requests := requests p0 ++ [req];
                    ticks := S (S (ticks p0)) |})
            end
        end
    end.
Proof.
  intros Hsetup. unfold request_completion, mbind, M_bind. rewrite Hsetup.
  unfold forwarded_kwargs, completions_create, time_now, logger_info, log,
    mret, M_ret, tool_calling_records.
  destruct func_spec as [fs|]; cbn.
  all: rewrite ?app_nil_r.
  all: destruct (_client p0) eqn:Hclient; cbn; [|destruct p0; reflexivity].
  all: destruct (call_keywords _ _); cbn; [destruct p0; reflexivity|].
  all: destruct (backoff_create _ _ _ _ _) as [[e|completion] retried]; cbn.
  all: rewrite <- ?app_assoc; reflexivity.
Qed.

Lemma setup_result p :
  (∃ p0, _setup_openrouter_client p = (inr tt, p0))
  ∨ (∃ e p0, _setup_openrouter_client p = (inl e, p0)
             ∧ once_done p = false
             ∧ openai_OpenAI "https://openrouter.ai/api/v1"
                 (environ p !! "OPENROUTER_API_KEY") 0%Z = inl e).
Proof.
  unfold _setup_openrouter_client, once.
  destruct (once_done p); [left; eauto|]. cbn.
  destruct (openai_OpenAI _ _ _) as [e|client] eqn:Hopen.
  - right. exists e. eexists. auto.
  - left. eauto.
Qed.

Lemma setup_done p :
  once_done p = true → _setup_openrouter_client p = (inr tt, p).
Proof.
  intros Hdone. unfold _setup_openrouter_client, once. rewrite Hdone.
  reflexivity.
Qed.

Lemma info_records_no_error (texts : list string) text :
  LogRecord ERROR text ∉ (LogRecord INFO <$> texts).
Proof.
  intros Hin. apply list_elem_of_fmap in Hin as (t & Heq & _). discriminate.
Qed.

(** Everything that a returning call did. *)
Lemma query_returns_trace system_message user_message func_spec
    convert_system_to_user model_kwargs p output elapsed in_tokens
    out_tokens info p' :
  query system_message user_message func_spec convert_system_to_user
    model_kwargs p
  = (inr (output, elapsed, in_tokens, out_tokens, info), p') →
  ∃ p0 client completion retried,
    _setup_openrouter_client p = (inr tt, p0)
    ∧ _client p0 = Some client
    ∧ duplicate_keyword (forwarded_kwargs func_spec model_kwargs) = None
    ∧ backoff_create client OPENAI_TIMEOUT_EXCEPTIONS
        (request_of system_message user_message func_spec model_kwargs)
        (length (requests p)) (S (ticks p)) = (inr completion, retried)
    ∧ info = info_dict completion
    ∧ elapsed = SFsub 53 1024 (time_time (S (ticks p))) (time_time (ticks p))
    ∧ setup_state p' = setup_state p0
    ∧ requests p'
      = requests p
        ++ [request_of system_message user_message func_spec model_kwargs]
    ∧ ticks p' = S (S (ticks p))
    ∧ records p'
      = records p ++ tool_calling_records func_spec
        ++ (LogRecord INFO <$> retried) ++ parsed_records func_spec.
Proof.
  intros Hq. apply query_returns_inv in Hq.
  destruct Hq as (completion & req_time & p1 & Hreq & Hread).
  destruct (setup_result p) as [[p0 Hsetup]|(e & p0 & Hsetup & _)].
  2:{ unfold request_completion, mbind, M_bind in Hreq.
      rewrite Hsetup in Hreq. discriminate. }
  pose proof (setup_frame p) as Hframe. rewrite Hsetup in Hframe.
  cbn in Hframe. destruct Hframe as (Hrec & Hreqs & Hticks).
  rewrite (request_completion_after_setup _ _ _ _ _ _ Hsetup) in Hreq.
  cbn zeta in Hreq.
  destruct (_client p0) as [client|] eqn:Hclient; [|discriminate].
  unfold call_keywords in Hreq.
  destruct (duplicate_keyword _) eqn:Hdup; [discriminate|].
  fold (request_of system_message user_message func_spec model_kwargs)
    in Hreq.
  destruct (backoff_create _ _ _ _ _) as [[e|c] retried] eqn:Hback;
    [discriminate|].
  cbn in Hreq. injection Hreq as -> <- <-.
  apply read_completion_returns_inv in Hread.
  destruct Hread as (choice & rest & out & u & Hch & Hparse & Hu & Hr).
  injection Hr as -> -> _ _ ->.
  exists p0, client, completion, retried.
  rewrite <- Hreqs, <- Hticks, <- Hrec.
  destruct func_spec as [fs|].
  - destruct (parse_output_returns_inv _ _ _ _ _ Hparse)
      as (tool_call & others & Htc & Hname & Hjson).
    rewrite (parse_output_match _ _ _ _ _ Htc Hname), Hjson in Hparse.
    injection Hparse as <-.
    unfold setup_state. cbn. rewrite <- !app_assoc, Hclient.
    split_and!; reflexivity || assumption.
  - rewrite parse_output_text in Hparse. injection Hparse as _ <-.
    unfold setup_state. cbn. rewrite !app_nil_r, Hclient.
    split_and!; reflexivity || assumption.
Qed.

Lemma setup_marks_done p : once_done (_setup_openrouter_client p).2 = true.
Proof.
  unfold _setup_openrouter_client, once.
  destruct (once_done p) eqn:Hdone; [exact Hdone|]. cbn.
  destruct (openai_OpenAI _ _ _); reflexivity.
Qed.

(** The client after a returning call is the one the set-up left. *)
Lemma client_after p0 p' client :
  setup_state p' = setup_state p0 → _client p0 = Some client →
  _client p' = Some client.
Proof. unfold setup_state. intros [= _ Hc _ _] Hclient. congruence. Qed.

(** ** Further properties of [query] *)

(** X1: a call of [query] makes at most one completion call, and that
    call carries the messages built from the two texts, the fixed routing
    directive and the forwarded keyword arguments. *)
Theorem query_makes_at_most_one_completion_call system_message user_message
    func_spec convert_system_to_user model_kwargs p :
  let p' :=
    (query system_message user_message func_spec convert_system_to_user
       model_kwargs p).2 in
  requests p' = requests p
  ∨ requests p'
    = requests p
      ++ [request_of system_message user_message func_spec model_kwargs].
Proof.
  destruct (query_requests system_message user_message func_spec
              convert_system_to_user model_kwargs p) as [Hsame|[_ Hsent]];
    [left|right]; assumption.
Qed.

(** X2: a call that returns has made exactly one completion call, through
    the client held by the process, and the value it returns was read from
    the completion which that call produced. *)
Theorem returning_query_made_one_completion_call system_message user_message
    func_spec convert_system_to_user model_kwargs p output elapsed in_tokens
    out_tokens info p' :
  query system_message user_message func_spec convert_system_to_user
    model_kwargs p
  = (inr (output, elapsed, in_tokens, out_tokens, info), p') →
  requests p'
  = requests p
    ++ [request_of system_message user_message func_spec model_kwargs]
  ∧ once_done p' = true
  ∧ ∃ client completion,
      _client p' = Some client
      ∧ (backoff_create client OPENAI_TIMEOUT_EXCEPTIONS
           (request_of system_message user_message func_spec model_kwargs)
           (length (requests p)) (S (ticks p))).1 = inr completion
      ∧ info = info_dict completion.
Proof.
  intros Hq. apply query_returns_trace in Hq.
  destruct Hq
    as (p0 & client & completion & retried & Hsetup & Hclient & _ & Hback
        & Hinfo & _ & Hstate & Hreqs & _).
  pose proof (setup_marks_done p) as Hdone. rewrite Hsetup in Hdone.
  cbn in Hdone.
  split; [exact Hreqs|]. split.
  - unfold setup_state in Hstate. injection Hstate as Hd _ _ _. congruence.
  - exists client, completion.
    split; [exact (client_after _ _ _ Hstate Hclient)|].
    rewrite Hback. auto.
Qed.

(** X3: a call that returns has read the clock exactly twice, and made
    its completion call between the two readings: the call was made when
    one reading had been taken, and the value returned was read from what
    that call produced; the elapsed time is the binary64 difference of
    the second reading and the first. *)
Theorem returning_query_elapsed_time system_message user_message
    func_spec convert_system_to_user model_kwargs p output elapsed in_tokens
    out_tokens info p' :
  query system_message user_message func_spec convert_system_to_user
    model_kwargs p
  = (inr (output, elapsed, in_tokens, out_tokens, info), p') →
  ticks p' = S (S (ticks p))
  ∧ elapsed
    = SFsub 53 1024 (time_time (S (ticks p))) (time_time (ticks p))
  ∧ ∃ client completion,
      _client p' = Some client
      ∧ (backoff_create client OPENAI_TIMEOUT_EXCEPTIONS
           (request_of system_message user_message func_spec model_kwargs)
           (length (requests p)) (S (ticks p))).1 = inr completion
      ∧ info = info_dict completion.
Proof.
  intros Hq. apply query_returns_trace in Hq.
  destruct Hq
    as (p0 & client & completion & retried & _ & Hclient & _ & Hback
        & Hinfo & Hdt & Hstate & _ & Hticks & _).
  split; [exact Hticks|]. split; [exact Hdt|].
  exists client, completion.
  split; [exact (client_after _ _ _ Hstate Hclient)|].
  rewrite Hback. auto.
Qed.

(** X4: without a function specification [query] itself writes nothing
    to the log: the log is as it was when no completion call is made, and
    gains exactly what the helper wrote during the completion call when
    one is made, whether [query] then returns or raises. *)
Theorem query_text_mode_logs_only_retries system_message user_message
    convert_system_to_user model_kwargs p :
  let r :=
    query system_message user_message None convert_system_to_user
      model_kwargs p in
  (requests r.2 = requests p ∧ records r.2 = records p)
  ∨ ∃ client,
      _client r.2 = Some client
      ∧ requests r.2
        = requests p
          ++ [request_of system_message user_message None model_kwargs]
      ∧ records r.2
        = records p
          ++ (LogRecord INFO
                <$> (backoff_create client OPENAI_TIMEOUT_EXCEPTIONS
                       (request_of system_message user_message None
                          model_kwargs)
                       (length (requests p)) (S (ticks p))).2).
Proof.
  cbn zeta.
  assert (∀ completion req_time,
            keeps (λ q, (_client q, requests q, records q))
              (read_completion None completion req_time)) as Hread.
  { intros completion req_time. unfold read_completion, parse_output.
    assert (∀ A (a : A), keeps (λ q, (_client q, requests q, records q))
                           (mret a)) as Hret by (intros; apply keeps_ret).
    keeps_cases. }
  pose proof (setup_frame p) as (Hrec & Hreqs & Hticks).
  pose proof (bind_snd (λ q, (_client q, requests q, records q))
                (request_completion system_message user_message None
                   model_kwargs)
                (λ '(completion, req_time),
                   read_completion None completion req_time) p) as Hsnd.
  cbn beta in Hsnd. fold (query system_message user_message None
                            convert_system_to_user model_kwargs) in Hsnd.
  specialize (Hsnd ltac:(intros [completion req_time]; apply Hread)).
  injection Hsnd as -> -> ->. clear Hread.
  destruct (setup_result p) as [[p0 Hsetup]|(e & p0 & Hsetup & _)].
  - rewrite Hsetup in Hrec, Hreqs, Hticks. cbn in Hrec, Hreqs, Hticks.
    rewrite (request_completion_after_setup _ _ _ _ _ _ Hsetup). cbn zeta.
    unfold call_keywords.
    destruct (_client p0) as [client|] eqn:Hclient.
    2:{ left. cbn. rewrite app_nil_r. auto. }
    destruct (duplicate_keyword _).
    { left. cbn. rewrite app_nil_r. auto. }
    fold (request_of system_message user_message None model_kwargs).
    right. exists client. rewrite <- Hreqs, <- Hticks, <- Hrec.
    destruct (backoff_create _ _ _ _ _) as [[e|completion] retried]; cbn;
      rewrite ?Hclient, ?app_nil_r; auto.
  - left. unfold request_completion, mbind, M_bind. rewrite Hsetup.
    rewrite Hsetup in Hrec, Hreqs. auto.
Qed.

(** X5: with a function specification, a call that returns has written
    the announcement of the tool call first and the confirmation that
    the arguments were parsed last, both at level INFO, and between them
    the log holds exactly what the helper wrote during the completion
    call. *)
Theorem returning_tool_query_log system_message user_message fs
    convert_system_to_user model_kwargs p output elapsed in_tokens
    out_tokens info p' :
  query system_message user_message (Some fs) convert_system_to_user
    model_kwargs p
  = (inr (output, elapsed, in_tokens, out_tokens, info), p') →
  ∃ client,
    _client p' = Some client
    ∧ records p'
      = records p
        ++ [LogRecord INFO ("Using OpenRouter tool calling for " +:+ name fs)]
        ++ (LogRecord INFO
              <$> (backoff_create client OPENAI_TIMEOUT_EXCEPTIONS
                     (request_of system_message user_message (Some fs)
                        model_kwargs)
                     (length (requests p)) (S (ticks p))).2)
        ++ [LogRecord INFO
              ("Successfully parsed tool call response for " +:+ name fs)].
Proof.
  intros Hq. apply query_returns_trace in Hq.
  destruct Hq
    as (p0 & client & completion & retried & _ & Hclient & _ & Hback & _ & _
        & Hstate & _ & _ & Hrec).
  exists client. split; [exact (client_after _ _ _ Hstate Hclient)|].
  rewrite Hback. exact Hrec.
Qed.

(** X6: when the client constructor raises in the first call, [query]
    raises that exception at once: nothing is logged, the clock is not
    read, no request is made, the client stays unset and the set-up is
    marked as done. *)
Theorem query_setup_failure_propagates system_message user_message
    func_spec convert_system_to_user model_kwargs p e :
  once_done p = false →
  openai_OpenAI "https://openrouter.ai/api/v1"
    (environ p !! "OPENROUTER_API_KEY") 0%Z = inl e →
  query system_message user_message func_spec convert_system_to_user
    model_kwargs p
  = (inl e,
     {| once_done := true; _client := _client p; environ := environ p;
        client_inits := client_inits p ++ [the_client_init (environ p)];
        records := records p; requests := requests p; ticks := ticks p |}).
Proof.
  intros Hdone Hopen.
  unfold query, request_completion, mbind, M_bind,
    _setup_openrouter_client, once.
  rewrite Hdone. cbn. rewrite Hopen. reflexivity.
Qed.

(** One call in a process whose set-up has run and left no client. *)
Lemma query_without_client system_message user_message func_spec
    convert_system_to_user model_kwargs p :
  once_done p = true → _client p = None →
  query system_message user_message func_spec convert_system_to_user
    model_kwargs p
  = (inl (Exn AttributeError "'NoneType' object has no attribute 'chat'"),
     {| once_done := once_done p; _client := _client p;
        environ := environ p; client_inits := client_inits p;
        records := records p ++ tool_calling_records func_spec;
        requests := requests p; ticks := S (ticks p) |}).
Proof.
  intros Hdone Hclient. unfold query, mbind, M_bind.
  rewrite (request_completion_after_setup _ _ _ _ _ _ (setup_done p Hdone)).
  cbn zeta. rewrite Hclient. reflexivity.
Qed.

(** X7: once the set-up has run and left no client (the constructor
    raised), every later call of [query] raises [AttributeError] on the
    missing client, and no request is ever made again. *)
Theorem query_without_client_fails_for_good p p' :
  rtc query_step p p' →
  once_done p = true →
  _client p = None →
  requests p' = requests p
  ∧ ∀ system_message user_message func_spec convert_system_to_user
      model_kwargs,
      (query system_message user_message func_spec convert_system_to_user
         model_kwargs p').1
      = inl (Exn AttributeError "'NoneType' object has no attribute 'chat'").
Proof.
  intros Hrun Hdone Hclient.
  assert (once_done p' = true ∧ _client p' = None
          ∧ requests p' = requests p) as (Hd & Hc & Hr).
  { revert p' Hrun.
    apply (rtc_ind_r (λ q, once_done q = true ∧ _client q = None
                           ∧ requests q = requests p)); [auto|].
    intros q q' _ Hstep (Hd & Hc & Hr). destruct Hstep.
    rewrite (query_without_client _ _ _ _ _ _ Hd Hc). cbn. auto. }
  split; [exact Hr|]. intros.
  rewrite (query_without_client _ _ _ _ _ _ Hd Hc). reflexivity.
Qed.

(** X8: once the set-up has run, no later call of [query] changes the
    client, the record of constructions, the mark of the [once] guard or
    the environment. *)
Theorem setup_state_stable_once_done p p' :
  rtc query_step p p' →
  once_done p = true →
  setup_state p' = setup_state p.
Proof.
  intros Hrun Hdone. revert p' Hrun.
  apply (rtc_ind_r (λ q, setup_state q = setup_state p)); [reflexivity|].
  intros q q' _ Hstep IH. destruct Hstep.
  rewrite query_setup_state, setup_again; [exact IH|].
  unfold setup_state in IH. injection IH as -> _ _ _. exact Hdone.
Qed.

(** X9: an exception raised by the completion call is raised by [query]
    unchanged; the request is on record, the clock was read once, and
    the log gained the announcement of the tool call, when there is a
    function specification, followed by what the helper wrote during the
    call, and nothing else. *)
Theorem query_propagates_completion_error system_message user_message
    func_spec convert_system_to_user model_kwargs p p0 client e retried :
  _setup_openrouter_client p = (inr tt, p0) →
  _client p0 = Some client →
  duplicate_keyword (forwarded_kwargs func_spec model_kwargs) = None →
  backoff_create client OPENAI_TIMEOUT_EXCEPTIONS
    (request_of system_message user_message func_spec model_kwargs)
    (length (requests p)) (S (ticks p)) = (inl e, retried) →
  let r :=
    query system_message user_message func_spec convert_system_to_user
      model_kwargs p in
  r.1 = inl e
  ∧ requests r.2
    = requests p
      ++ [request_of system_message user_message func_spec model_kwargs]
  ∧ ticks r.2 = S (ticks p)
  ∧ records r.2
    = records p ++ tool_calling_records func_spec
      ++ (LogRecord INFO <$> retried).
Proof.
  intros Hsetup Hclient Hdup Hback.
  pose proof (setup_frame p) as Hframe. rewrite Hsetup in Hframe.
  cbn in Hframe. destruct Hframe as (Hrec & Hreqs & Hticks).
  cbn zeta. unfold query, mbind, M_bind.
  rewrite (request_completion_after_setup _ _ _ _ _ _ Hsetup).
  cbn zeta. rewrite Hclient. unfold call_keywords. rewrite Hdup.
  fold (request_of system_message user_message func_spec model_kwargs).
  rewrite Hreqs, Hticks, Hback. cbn. rewrite ?Hrec, ?Hreqs, ?Hticks. auto.
Qed.

(** X10: a parameter named [messages] or [extra_body] whose value is not
    [None] makes [query] raise without making a request; when the client
    is available the exception is the [TypeError] of a keyword given
    twice. *)
Theorem query_rejects_reserved_keyword system_message user_message
    func_spec convert_system_to_user model_kwargs p k v :
  k = "messages" ∨ k = "extra_body" →
  model_kwargs !! k = Some v →
  v ≠ PNone →
  let r :=
    query system_message user_message func_spec convert_system_to_user
      model_kwargs p in
  requests r.2 = requests p
  ∧ (∃ e, r.1 = inl e)
  ∧ (∀ p0 client,
       _setup_openrouter_client p = (inr tt, p0) →
       _client p0 = Some client →
       ∃ text, r.1 = inl (Exn TypeError text)).
Proof.
  intros Hname Hk Hv. cbn zeta.
  assert (∃ k', duplicate_keyword (forwarded_kwargs func_spec model_kwargs)
                = Some k') as [k' Hdup].
  { destruct (duplicate_keyword _) as [k'|] eqn:Hdup; [eauto|].
    apply duplicate_keyword_None in Hdup as [Hm He].
    pose proof (forwarded_kwargs_survivor func_spec _ _ _ Hk Hv) as Hin.
    destruct Hname as [-> | ->]; contradiction. }
  pose proof (setup_frame p) as (_ & Hreqs & _).
  unfold query, mbind, M_bind.
  destruct (setup_result p) as [[p0 Hsetup]|(e & p0 & Hsetup & _)].
  - rewrite (request_completion_after_setup _ _ _ _ _ _ Hsetup).
    rewrite Hsetup in Hreqs. cbn in Hreqs. cbn zeta.
    unfold call_keywords. rewrite Hdup.
    destruct (_client p0) as [client|] eqn:Hclient; cbn.
    + split; [exact Hreqs|]. split; [eauto|]. eauto.
    + split; [exact Hreqs|]. split; [eauto|].
      intros p0' client Hsetup' Hclient'. rewrite Hsetup in Hsetup'.
      injection Hsetup' as <-. congruence.
  - unfold request_completion, mbind, M_bind. rewrite Hsetup.
    rewrite Hsetup in Hreqs. cbn in Hreqs. cbn.
    split; [exact Hreqs|]. split; [eauto|].
    intros p0' client Hsetup'. discriminate.
Qed.

(** X11: a completion without choices makes [query] raise [IndexError],
    and a completion without usage makes it raise instead of returning,
    whatever the output was. *)
Theorem query_rejects_incomplete_response system_message user_message
    func_spec convert_system_to_user model_kwargs p completion req_time p1 :
  request_completion system_message user_message func_spec model_kwargs p
  = (inr (completion, req_time), p1) →
  (choices completion = [] →
   query system_message user_message func_spec convert_system_to_user
     model_kwargs p
   = (inl (Exn IndexError "list index out of range"), p1))
  ∧ (usage completion = None →
     ∃ e p',
       query system_message user_message func_spec convert_system_to_user
         model_kwargs p = (inl e, p')).
Proof.
  intros Hreq.
  rewrite (query_after_request _ _ _ convert_system_to_user _ _ _ _ _ Hreq).
  split.
  - intros Hch. unfold read_completion, first_choice. rewrite Hch.
    reflexivity.
  - intros Hu.
    destruct (read_completion func_spec completion req_time p1)
      as [[e|r] p'] eqn:Hread; [eauto|].
    apply read_completion_returns_inv in Hread.
    destruct Hread as (choice & rest & out & u & _ & _ & Hsome & _).
    congruence.
Qed.

(** X12: an exception of [json.loads] that is not a [JSONDecodeError]
    passes through [query] without the error record. *)
Theorem query_passes_other_decode_exception system_message user_message fs
    convert_system_to_user model_kwargs p completion req_time p1
    choice rest tool_call others e :
  request_completion system_message user_message (Some fs) model_kwargs p
  = (inr (completion, req_time), p1) →
  choices completion = choice :: rest →
  tool_calls (message choice) = Some (tool_call :: others) →
  fn_name (function tool_call) = name fs →
  json_loads (arguments (function tool_call)) = inl e →
  exn_cls e ≠ JSONDecodeError →
  query system_message user_message (Some fs) convert_system_to_user
    model_kwargs p = (inl e, p1).
Proof.
  intros Hreq Hch Htc Hname Hjson Hcls.
  rewrite (query_after_request _ _ _ convert_system_to_user _ _ _ _ _ Hreq).
  rewrite (read_completion_choice _ _ _ _ _ _ Hch).
  rewrite (parse_output_match _ _ _ _ _ Htc Hname), Hjson.
  unfold is_JSONDecodeError. destruct (exn_cls e); try reflexivity.
  contradiction.
Qed.

(** X13: only the first choice of a completion, and only the first tool
    call of that choice, bear on what [query] makes of the completion. *)
Theorem read_completion_first_only func_spec completion req_time p :
  read_completion func_spec (first_only completion) req_time p
  = read_completion func_spec completion req_time p.
Proof.
  destruct completion as [chs u fp mdl crt].
  unfold read_completion, first_only, first_choice, token_counts,
    parse_output, info_dict, mbind, M_bind, mret, M_ret. cbn.
  destruct chs as [|[[text calls]] rest]; [reflexivity|]. cbn.
  destruct func_spec as [fs|]; [|reflexivity].
  destruct calls as [[|tool_call others]|]; reflexivity.
Qed.

Lemma tool_calling_records_info func_spec text :
  LogRecord ERROR text ∉ tool_calling_records func_spec.
Proof.
  destruct func_spec as [fs|]; cbn.
  - intros Hin. apply list_elem_of_singleton in Hin. discriminate.
  - apply not_elem_of_nil.
Qed.

(** What [read_completion] adds to the log. *)
Lemma read_completion_records func_spec completion req_time p :
  let r := read_completion func_spec completion req_time p in
  ∃ new,
    records r.2 = records p ++ new
    ∧ ∀ text, LogRecord ERROR text ∈ new →
              ∃ e, r.1 = inl e ∧ exn_cls e = JSONDecodeError.
Proof.
  cbn zeta.
  destruct (choices completion) as [|choice rest] eqn:Hch.
  { exists []. unfold read_completion, first_choice. rewrite Hch. cbn.
    rewrite app_nil_r. split; [reflexivity|]. intros text Hin.
    inversion Hin. }
  rewrite (read_completion_choice _ _ _ _ _ _ Hch).
  destruct func_spec as [fs|].
  2:{ rewrite parse_output_text. exists [].
      destruct (usage completion); cbn; rewrite app_nil_r;
        (split; [reflexivity|]); intros text Hin; inversion Hin. }
  destruct (tool_calls (message choice)) as [[|tool_call others]|] eqn:Htc.
  1,3: rewrite parse_output_no_tool_call by auto; exists []; cbn;
       rewrite app_nil_r; (split; [reflexivity|]); intros text Hin;
       inversion Hin.
  destruct (String.eqb_spec (fn_name (function tool_call)) (name fs))
    as [Hname|Hname].
  2:{ rewrite (parse_output_mismatch _ _ _ _ _ Htc Hname).
      exists []. cbn. rewrite app_nil_r. split; [reflexivity|].
      intros text Hin. inversion Hin. }
  rewrite (parse_output_match _ _ _ _ _ Htc Hname).
  destruct (json_loads _) as [e|out].
  - unfold is_JSONDecodeError. destruct (exn_cls e) eqn:Hcls.
    2:{ eexists. cbn. split; [reflexivity|]. intros text _. eauto. }
    all: exists []; cbn; rewrite app_nil_r; (split; [reflexivity|]);
         intros text Hin; inversion Hin.
  - eexists. destruct (usage completion); cbn; (split; [reflexivity|]);
      intros text Hin; apply list_elem_of_singleton in Hin; discriminate.
Qed.

(** X14: [query] writes an ERROR record only when it raises a
    [JSONDecodeError]: in every other outcome the records it adds to the
    log are at level INFO. *)
Theorem query_error_record_only_on_decode_error system_message user_message
    func_spec convert_system_to_user model_kwargs p :
  let r :=
    query system_message user_message func_spec convert_system_to_user
      model_kwargs p in
  ∃ new,
    records r.2 = records p ++ new
    ∧ ∀ text, LogRecord ERROR text ∈ new →
              ∃ e, r.1 = inl e ∧ exn_cls e = JSONDecodeError.
Proof.
  cbn zeta. pose proof (setup_frame p) as (Hrec & _ & _).
  unfold query, mbind, M_bind.
  destruct (setup_result p) as [[p0 Hsetup]|(e & p0 & Hsetup & _)].
  2:{ unfold request_completion, mbind, M_bind. rewrite Hsetup.
      rewrite Hsetup in Hrec. cbn in Hrec. exists []. cbn.
      rewrite app_nil_r. split; [exact Hrec|]. intros text Hin.
      inversion Hin. }
  rewrite (request_completion_after_setup _ _ _ _ _ _ Hsetup).
  rewrite Hsetup in Hrec. cbn in Hrec. cbn zeta.
  destruct (_client p0) as [client|].
  2:{ exists (tool_calling_records func_spec). cbn. rewrite Hrec.
      split; [reflexivity|]. intros text Hin.
      destruct (tool_calling_records_info _ _ Hin). }
  destruct (call_keywords _ _) as [e|req].
  { exists (tool_calling_records func_spec). cbn. rewrite Hrec.
    split; [reflexivity|]. intros text Hin.
    destruct (tool_calling_records_info _ _ Hin). }
  destruct (backoff_create _ _ _ _ _) as [[e|completion] retried]; cbn.
  { exists (tool_calling_records func_spec ++ (LogRecord INFO <$> retried)).
    rewrite Hrec. split; [reflexivity|]. intros text Hin.
    apply elem_of_app in Hin as [Hin|Hin].
    - destruct (tool_calling_records_info _ _ Hin).
    - destruct (info_records_no_error _ _ Hin). }
  match goal with
  | |- context [read_completion ?f ?c ?t ?q] =>
      destruct (read_completion_records f c t q) as (new & Hnew & Herr)
  end.
  exists (tool_calling_records func_spec ++ (LogRecord INFO <$> retried)
          ++ new).
  split.
  - rewrite Hnew. cbn [records]. rewrite Hrec, <- !app_assoc. reflexivity.
  - intros text Hin.
    apply elem_of_app in Hin as [Hin|Hin];
      [destruct (tool_calling_records_info _ _ Hin)|].
    apply elem_of_app in Hin as [Hin|Hin]; [|exact (Herr text Hin)].
    destruct (info_records_no_error _ _ Hin).
Qed.

End Properties.

(** * The properties on sample runs *)

(** The text example: [query(None, "hi")] answered by [hello] with usage
    3 and 1. *)
Example query_text_example :
  let W := sample_collaborators [inr (text_completion (Some "hello"))] in
  (@query W None (Some "hi") None false ∅
     (@initial_process W sample_environ)).1
  = inr (PStr "hello", S754_finite false 4503599627370496 (-53), 3%Z, 1%Z,
         {[ "system_fingerprint" := PNone;
            "model" := PStr "openai/gpt-4o";
            "created" := PInt 1700000000 ]}).
Proof. vm_compute. reflexivity. Qed.

(** Both messages given: two user entries, the system text first. *)
Example build_messages_both :
  build_messages (Some "be brief") (Some "hi")
  = [ {[ "role" := PStr "user"; "content" := PStr "be brief" ]};
      {[ "role" := PStr "user"; "content" := PStr "hi" ]} ].
Proof. vm_compute. reflexivity. Qed.

Example build_messages_empty_system :
  build_messages (Some "") (Some "hi")
  = [ {[ "role" := PStr "user"; "content" := PStr "hi" ]} ].
Proof. vm_compute. reflexivity. Qed.

(** Without an API key the sample constructor raises in the first call;
    the second call does not construct again and fails on the missing
    client. *)
Example setup_not_repeated_after_failure :
  let W := sample_collaborators [] in
  let r1 := @query W None (Some "hi") None false ∅ (@initial_process W ∅) in
  let r2 := @query W None (Some "hi") None false ∅ r1.2 in
  r1.1 = inl missing_key_error
  ∧ r2.1 = inl (Exn AttributeError
                  "'NoneType' object has no attribute 'chat'")
  ∧ client_inits r2.2 = [("https://openrouter.ai/api/v1", None, 0%Z)].
Proof. vm_compute. auto. Qed.

(** A parameter named [messages] that survives the filtering collides
    with the explicit [messages=] of the completion call: no request is
    made. *)
Example query_duplicate_messages_keyword :
  let W := sample_collaborators [inr (text_completion (Some "hello"))] in
  let r := @query W None (Some "hi") None false {[ "messages" := PStr "" ]}
             (@initial_process W sample_environ) in
  r.1 = inl (Exn TypeError
               ("aide.backend.utils.backoff_create() got multiple values "
                +:+ "for keyword argument 'messages'"))
  ∧ requests r.2 = [].
Proof. vm_compute. auto. Qed.

(** C1 on a response without tool calls. *)
Lemma query_asserts_matching_tool_call_witness :
  let W := sample_collaborators [inr (tool_completion (Some []))] in
  let p0 := @initial_process W sample_environ in
  ∃ text,
    @query W None (Some "hi") (Some lookup_spec) false ∅ p0
    = (inl (Exn AssertionError text),
       (@request_completion W None (Some "hi") (Some lookup_spec) ∅ p0).2).
Proof.
  intros W p0.
  refine (proj1 (@query_asserts_matching_tool_call W None (Some "hi")
                   lookup_spec false ∅ p0 (tool_completion (Some []))
                   (SFsub 53 1024 (sample_time 1) (sample_time 0))
                   (@request_completion W None (Some "hi") (Some lookup_spec)
                      ∅ p0).2
                   (calls_choice (Some [])) [] _ _) _).
  - vm_compute. reflexivity.
  - reflexivity.
  - right. left. reflexivity.
Defined.

(** C3 on the tool call [lookup] with arguments [{"x":1}]. *)
Lemma query_output_is_decoded_arguments_witness :
  let W := sample_collaborators
             [inr (tool_completion (Some [call_of "lookup" x1_arguments]))] in
  let p0 := @initial_process W sample_environ in
  ∃ p',
    @query W None (Some "hi") (Some lookup_spec) false ∅ p0
    = (inr (PDict {[ "x" := PInt 1 ]},
            SFsub 53 1024 (sample_time 1) (sample_time 0), 12%Z, 7%Z,
            info_dict
              (tool_completion (Some [call_of "lookup" x1_arguments]))),
       p').
Proof.
  intros W p0.
  refine (proj2 (@query_output_is_decoded_arguments W None (Some "hi")
                   lookup_spec false ∅ p0
                   (tool_completion (Some [call_of "lookup" x1_arguments]))
                   (SFsub 53 1024 (sample_time 1) (sample_time 0))
                   (@request_completion W None (Some "hi") (Some lookup_spec)
                      ∅ p0).2
                   (calls_choice (Some [call_of "lookup" x1_arguments])) []
                   (call_of "lookup" x1_arguments) []
                   (PDict {[ "x" := PInt 1 ]}) _ _ _ _ _)
            {| prompt_tokens := 12; completion_tokens := 7 |} _).
  - vm_compute. reflexivity.
  - reflexivity.
  - reflexivity.
  - reflexivity.
  - vm_compute. reflexivity.
  - reflexivity.
Defined.

(** C4 on a response whose content is [None]. *)
Lemma query_output_is_message_content_witness :
  let W := sample_collaborators [inr (text_completion None)] in
  let p0 := @initial_process W sample_environ in
  @query W None (Some "hi") None false ∅ p0
  = (inr (PNone, SFsub 53 1024 (sample_time 1) (sample_time 0), 3%Z, 1%Z,
          info_dict (text_completion None)),
     (@request_completion W None (Some "hi") None ∅ p0).2).
Proof.
  intros W p0.
  refine (proj2 (@query_output_is_message_content W None (Some "hi") false ∅
                   p0 (text_completion None)
                   (SFsub 53 1024 (sample_time 1) (sample_time 0))
                   (@request_completion W None (Some "hi") None ∅ p0).2
                   (text_choice None) [] _ _)
            {| prompt_tokens := 3; completion_tokens := 1 |} _).
  - vm_compute. reflexivity.
  - reflexivity.
  - reflexivity.
Defined.

(** C5 on a tool call whose arguments are not JSON. *)
Lemma query_logs_and_reraises_decode_error_witness :
  let W := sample_collaborators
             [inr (tool_completion (Some [call_of "lookup" "{x:"]))] in
  let p0 := @initial_process W sample_environ in
  ∃ p',
    @query W None (Some "hi") (Some lookup_spec) false ∅ p0
    = (inl (Exn JSONDecodeError "Expecting value: line 1 column 1 (char 0)"),
       p')
    ∧ records p'
      = records
          (@request_completion W None (Some "hi") (Some lookup_spec) ∅ p0).2
        ++ [LogRecord ERROR ("Error decoding function arguments: " +:+ "{x:")].
Proof.
  intros W p0.
  assert (@request_completion W None (Some "hi") (Some lookup_spec) ∅ p0
          = (inr (tool_completion (Some [call_of "lookup" "{x:"]),
                  SFsub 53 1024 (sample_time 1) (sample_time 0)),
             (@request_completion W None (Some "hi") (Some lookup_spec) ∅
                p0).2)) as Hreq by (vm_compute; reflexivity).
  assert (@json_loads W "{x:"
          = inl (Exn JSONDecodeError
                   "Expecting value: line 1 column 1 (char 0)")) as Hjson
    by (vm_compute; reflexivity).
  destruct (@query_logs_and_reraises_decode_error W None (Some "hi")
              lookup_spec false ∅ p0
              (tool_completion (Some [call_of "lookup" "{x:"]))
              (SFsub 53 1024 (sample_time 1) (sample_time 0))
              (@request_completion W None (Some "hi") (Some lookup_spec) ∅
                 p0).2
              (calls_choice (Some [call_of "lookup" "{x:"])) []
              (call_of "lookup" "{x:") []
              (Exn JSONDecodeError
                 "Expecting value: line 1 column 1 (char 0)")
              Hreq eq_refl eq_refl eq_refl Hjson)
    as (p' & Hquery & Hlogged & _).
  exists p'. split; [exact Hquery|]. apply Hlogged. reflexivity.
Defined.

(** C7 on the text answer [hello] with usage 3 and 1. *)
Lemma query_returns_usage_and_metadata_witness :
  let W := sample_collaborators [inr (text_completion (Some "hello"))] in
  let p0 := @initial_process W sample_environ in
  let info := info_dict (text_completion (Some "hello")) in
  ∃ completion req_time p1 u,
    @request_completion W None (Some "hi") None ∅ p0
    = (inr (completion, req_time), p1)
    ∧ usage completion = Some u
    ∧ 3%Z = prompt_tokens u
    ∧ 1%Z = completion_tokens u
    ∧ dom info = {[ "system_fingerprint"; "model"; "created" ]}
    ∧ info !! "system_fingerprint"
      = Some (py_of_optstr (system_fingerprint completion))
    ∧ info !! "model" = Some (PStr (model completion))
    ∧ info !! "created" = Some (PInt (created completion)).
Proof.
  intros W p0 info.
  refine (@query_returns_usage_and_metadata W None (Some "hi") None false ∅
            p0 (PStr "hello")
            (SFsub 53 1024 (sample_time 1) (sample_time 0)) 3%Z 1%Z info
            (@query W None (Some "hi") None false ∅ p0).2 _).
  vm_compute. reflexivity.
Defined.

(** C8 on two calls in a row. *)
Lemma client_initialised_at_most_once_witness :
  let W := sample_collaborators
             [inr (text_completion (Some "hello"));
              inr (text_completion None)] in
  let p0 := @initial_process W sample_environ in
  let p1 := (@query W None (Some "hi") None false ∅ p0).2 in
  let p2 := (@query W (Some "be brief") (Some "hi") None true ∅ p1).2 in
  length (client_inits p2) ≤ 1
  ∧ ∀ init, init ∈ client_inits p2 → init = the_client_init sample_environ.
Proof.
  intros W p0 p1 p2.
  refine (@client_initialised_at_most_once W sample_environ p2 _).
  refine (rtc_l _ p0 p1 p2 _ _); [apply QueryStep|].
  refine (rtc_l _ p1 p2 p2 _ _); [apply QueryStep|].
  apply rtc_refl.
Defined.

(** C6 on [sample_kwargs] without a function specification. *)
Lemma model_kwargs_filtered_then_forwarded_witness :
  let W := sample_collaborators [inr (text_completion (Some "hello"))] in
  let p0 := @initial_process W sample_environ in
  let req := {| req_messages := build_messages None (Some "hi");
                req_extra_body := extra_body;
                req_kwargs := {[ "model" := PStr "openai/gpt-4o";
                                 "temperature" := PInt 0 ]} |} in
  select_values notnone sample_kwargs !! "max_tokens" = None
  ∧ req_kwargs req !! "max_tokens" = None
  ∧ req_kwargs req !! "model" = Some (PStr "openai/gpt-4o")
  ∧ req_kwargs req !! "temperature" = Some (PInt 0).
Proof.
  intros W p0 req.
  assert (requests (@query W None (Some "hi") None false sample_kwargs p0).2
          = requests p0 ++ [req]) as Hsent by (vm_compute; reflexivity).
  assert (∀ k, ¬ set_from_func_spec None k) as Hfree
    by (intros k [Hspec _]; apply Hspec; reflexivity).
  destruct (@model_kwargs_filtered_then_forwarded W None (Some "hi") None
              false sample_kwargs p0 req Hsent)
    as (Hfiltered & Hremoved & Hkept & _ & _).
  split; [apply Hfiltered; reflexivity|].
  split; [apply Hremoved; [reflexivity|apply Hfree]|].
  split.
  - apply (Hkept "model" (PStr "openai/gpt-4o"));
      [reflexivity|discriminate|apply Hfree].
  - apply (Hkept "temperature" (PInt 0));
      [reflexivity|discriminate|apply Hfree].
Defined.

(** C10 on [falsy_kwargs] without a function specification. *)
Lemma falsy_kwargs_kept_and_forwarded_witness :
  let W := sample_collaborators [inr (text_completion (Some "hello"))] in
  let p0 := @initial_process W sample_environ in
  let req := {| req_messages := build_messages None (Some "hi");
                req_extra_body := extra_body;
                req_kwargs := {[ "temperature" := PInt 0;
                                 "top_p" := PFloat (S754_zero false);
                                 "stop" := PStr "";
                                 "stream" := PBool false ]} |} in
  select_values notnone falsy_kwargs !! "temperature" = Some (PInt 0)
  ∧ req_kwargs req !! "temperature" = Some (PInt 0)
  ∧ req_kwargs req !! "top_p" = Some (PFloat (S754_zero false))
  ∧ req_kwargs req !! "stop" = Some (PStr "")
  ∧ req_kwargs req !! "stream" = Some (PBool false).
Proof.
  intros W p0 req.
  assert (requests (@query W None (Some "hi") None false falsy_kwargs p0).2
          = requests p0 ++ [req]) as Hsent by (vm_compute; reflexivity).
  assert (∀ k, ¬ set_from_func_spec None k) as Hfree
    by (intros k [Hspec _]; apply Hspec; reflexivity).
  pose proof (λ k v Hk Hv Hf,
                proj2 (@falsy_kwargs_kept_and_forwarded W None (Some "hi")
                         None false falsy_kwargs p0 k v Hk Hv Hf))
    as Hkept.
  split.
  { refine (proj1 (Hkept "temperature" (PInt 0) _ _ _));
      [reflexivity|discriminate|reflexivity]. }
  split.
  { refine (proj2 (Hkept "temperature" (PInt 0) _ _ _) req Hsent (Hfree _));
      [reflexivity|discriminate|reflexivity]. }
  split.
  { refine (proj2 (Hkept "top_p" (PFloat (S754_zero false)) _ _ _)
              req Hsent (Hfree _));
      [reflexivity|discriminate|reflexivity]. }
  split.
  { refine (proj2 (Hkept "stop" (PStr "") _ _ _) req Hsent (Hfree _));
      [reflexivity|discriminate|reflexivity]. }
  refine (proj2 (Hkept "stream" (PBool false) _ _ _) req Hsent (Hfree _));
    [reflexivity|discriminate|reflexivity].
Defined.

(** ** Where the unamended statements fail *)

(** C6 as stated fails: with a function specification, a parameter
    [tools] that is not [None] is not forwarded; the request carries the
    tool list of the specification under that name. *)
Lemma model_kwargs_tools_is_replaced :
  let W := sample_collaborators
             [inr (tool_completion (Some [call_of "lookup" x1_arguments]))] in
  let p0 := @initial_process W sample_environ in
  let model_kwargs : gmap string pyval := {[ "tools" := PStr "mine" ]} in
  let p1 :=
    (@query W None (Some "hi") (Some lookup_spec) false model_kwargs p0).2 in
  model_kwargs !! "tools" = Some (PStr "mine")
  ∧ PStr "mine" ≠ PNone
  ∧ ∃ req,
      requests p1 = requests p0 ++ [req]
      ∧ req_kwargs req !! "tools"
        = Some (PList [as_openai_tool_dict lookup_spec])
      ∧ req_kwargs req !! "tools" ≠ Some (PStr "mine").
Proof.
  intros W p0 model_kwargs p1.
  split; [reflexivity|]. split; [discriminate|].
  exists {| req_messages := build_messages None (Some "hi");
            req_extra_body := extra_body;
            req_kwargs := forwarded_kwargs (Some lookup_spec) model_kwargs |}.
  split; [vm_compute; reflexivity|].
  split; [vm_compute; reflexivity|].
  vm_compute. discriminate.
Qed.

(** C10 as stated fails: with a function specification, a parameter
    [tool_choice] whose value is [False] is kept by the filtering and yet
    not forwarded; the request carries the forced choice of the
    specification under that name. *)
Lemma falsy_tool_choice_is_replaced :
  let W := sample_collaborators
             [inr (tool_completion (Some [call_of "lookup" x1_arguments]))] in
  let p0 := @initial_process W sample_environ in
  let model_kwargs : gmap string pyval := {[ "tool_choice" := PBool false ]} in
  let p1 :=
    (@query W None (Some "hi") (Some lookup_spec) false model_kwargs p0).2 in
  model_kwargs !! "tool_choice" = Some (PBool false)
  ∧ truthy (PBool false) = false
  ∧ PBool false ≠ PNone
  ∧ select_values notnone model_kwargs !! "tool_choice" = Some (PBool false)
  ∧ ∃ req,
      requests p1 = requests p0 ++ [req]
      ∧ req_kwargs req !! "tool_choice"
        = Some (openai_tool_choice_dict lookup_spec)
      ∧ req_kwargs req !! "tool_choice" ≠ Some (PBool false).
Proof.
  intros W p0 model_kwargs p1.
  split; [reflexivity|]. split; [reflexivity|]. split; [discriminate|].
  split; [vm_compute; reflexivity|].
  exists {| req_messages := build_messages None (Some "hi");
            req_extra_body := extra_body;
            req_kwargs := forwarded_kwargs (Some lookup_spec) model_kwargs |}.
  split; [vm_compute; reflexivity|].
  split; [vm_compute; reflexivity|].
  vm_compute. discriminate.
Qed.

(** C5 as stated fails: two thousand opening brackets are not valid
    JSON, yet [json.loads] raises [RecursionError] on them, which [query]
    raises without the error record; the log holds the announcement of the
    tool call and nothing else. *)
Lemma deep_arguments_raise_unlogged :
  let W := deep_collaborators
             [inr (tool_completion (Some [call_of "lookup" deep_arguments]))] in
  let p0 := @initial_process W sample_environ in
  let r := @query W None (Some "hi") (Some lookup_spec) false ∅ p0 in
  (∀ decoded, @json_loads W deep_arguments ≠ inr decoded)
  ∧ r.1 = inl recursion_error
  ∧ exn_cls recursion_error ≠ JSONDecodeError
  ∧ records r.2
    = [LogRecord INFO ("Using OpenRouter tool calling for " +:+ "lookup")].
Proof.
  intros W p0 r. split_and!.
  - intros decoded. vm_compute. discriminate.
  - vm_compute. reflexivity.
  - discriminate.
  - vm_compute. reflexivity.
Qed.

(** * The further properties on sample runs *)

(** X2 on the text answer [hello]. *)
Lemma returning_query_made_one_completion_call_witness :
  let W := sample_collaborators [inr (text_completion (Some "hello"))] in
  let p0 := @initial_process W sample_environ in
  let p' := (@query W None (Some "hi") None false ∅ p0).2 in
  requests p' = requests p0 ++ [request_of None (Some "hi") None ∅]
  ∧ once_done p' = true
  ∧ ∃ client completion,
      _client p' = Some client
      ∧ (@backoff_create W client OPENAI_TIMEOUT_EXCEPTIONS
           (request_of None (Some "hi") None ∅) (length (requests p0))
           (S (ticks p0))).1
        = inr completion
      ∧ info_dict (text_completion (Some "hello")) = info_dict completion.
Proof.
  intros W p0 p'.
  refine (@returning_query_made_one_completion_call W None (Some "hi") None
            false ∅ p0 (PStr "hello")
            (SFsub 53 1024 (sample_time 1) (sample_time 0)) 3%Z 1%Z
            (info_dict (text_completion (Some "hello"))) p' _).
  vm_compute. reflexivity.
Defined.

(** X3 on the text answer [hello]: the sample clock reads 1.0 and then
    1.5, and the elapsed time is 0.5. *)
Lemma returning_query_elapsed_time_witness :
  let W := sample_collaborators [inr (text_completion (Some "hello"))] in
  let p0 := @initial_process W sample_environ in
  let p' := (@query W None (Some "hi") None false ∅ p0).2 in
  ticks p' = 2
  ∧ S754_finite false 4503599627370496 (-53)
    = SFsub 53 1024 (sample_time 1) (sample_time 0)
  ∧ ∃ client completion,
      _client p' = Some client
      ∧ (@backoff_create W client OPENAI_TIMEOUT_EXCEPTIONS
           (request_of None (Some "hi") None ∅) 0 1).1 = inr completion
      ∧ info_dict (text_completion (Some "hello")) = info_dict completion.
Proof.
  intros W p0 p'.
  refine (@returning_query_elapsed_time W None (Some "hi") None false ∅ p0
            (PStr "hello") (S754_finite false 4503599627370496 (-53))
            3%Z 1%Z (info_dict (text_completion (Some "hello"))) p' _).
  vm_compute. reflexivity.
Defined.

(** X4 on a call retried once for the rate limit: the log holds the
    record of the helper and nothing else. *)
Example query_text_mode_retry_logged :
  let W := retrying_collaborators
             [(inr (text_completion (Some "hello")), [rate_limit_text])] in
  records
    (@query W None (Some "hi") None false ∅
       (@initial_process W sample_environ)).2
  = [LogRecord INFO rate_limit_text].
Proof. vm_compute. reflexivity. Qed.

(** X5 on the tool call [lookup], retried once for the rate limit: three
    records, the one of the helper between those of [query]. *)
Lemma returning_tool_query_log_witness :
  let W := retrying_collaborators
             [(inr (tool_completion (Some [call_of "lookup" x1_arguments])),
               [rate_limit_text])] in
  let p0 := @initial_process W sample_environ in
  let p' := (@query W None (Some "hi") (Some lookup_spec) false ∅ p0).2 in
  ∃ client,
    _client p' = Some client
    ∧ records p'
      = records p0
        ++ [LogRecord INFO
              ("Using OpenRouter tool calling for " +:+ name lookup_spec)]
        ++ (LogRecord INFO
              <$> (@backoff_create W client OPENAI_TIMEOUT_EXCEPTIONS
                     (request_of None (Some "hi") (Some lookup_spec) ∅)
                     (length (requests p0)) (S (ticks p0))).2)
        ++ [LogRecord INFO
              ("Successfully parsed tool call response for "
               +:+ name lookup_spec)].
Proof.
  intros W p0 p'.
  refine (@returning_tool_query_log W None (Some "hi") lookup_spec
            false ∅ p0 (PDict {[ "x" := PInt 1 ]})
            (SFsub 53 1024 (sample_time 1) (sample_time 0)) 12%Z 7%Z
            (info_dict
               (tool_completion (Some [call_of "lookup" x1_arguments])))
            p' _).
  vm_compute. reflexivity.
Defined.

Example returning_tool_query_three_records :
  let W := retrying_collaborators
             [(inr (tool_completion (Some [call_of "lookup" x1_arguments])),
               [rate_limit_text])] in
  records
    (@query W None (Some "hi") (Some lookup_spec) false ∅
       (@initial_process W sample_environ)).2
  = [LogRecord INFO "Using OpenRouter tool calling for lookup";
     LogRecord INFO rate_limit_text;
     LogRecord INFO "Successfully parsed tool call response for lookup"].
Proof. vm_compute. reflexivity. Qed.

(** X6 in an environment without the API key. *)
Lemma query_setup_failure_propagates_witness :
  let W := sample_collaborators [] in
  let p0 := @initial_process W ∅ in
  @query W None (Some "hi") None false ∅ p0
  = (inl missing_key_error,
     {| once_done := true; _client := _client p0; environ := environ p0;
        client_inits := client_inits p0 ++ [the_client_init (environ p0)];
        records := records p0; requests := requests p0;
        ticks := ticks p0 |}).
Proof.
  intros W p0.
  refine (@query_setup_failure_propagates W None (Some "hi") None false ∅ p0
            missing_key_error _ _);
    reflexivity.
Defined.

(** X7 after a first call that failed to build the client. *)
Lemma query_without_client_fails_for_good_witness :
  let W := sample_collaborators [inr (text_completion (Some "hello"))] in
  let p1 :=
    (@query W None (Some "hi") None false ∅ (@initial_process W ∅)).2 in
  let p2 := (@query W None (Some "again") None false ∅ p1).2 in
  requests p2 = requests p1
  ∧ ∀ system_message user_message func_spec convert_system_to_user
      model_kwargs,
      (@query W system_message user_message func_spec
         convert_system_to_user model_kwargs p2).1
      = inl (Exn AttributeError "'NoneType' object has no attribute 'chat'").
Proof.
  intros W p1 p2.
  refine (@query_without_client_fails_for_good W p1 p2 _ _ _).
  - refine (rtc_l _ p1 p2 p2 _ _); [apply QueryStep|apply rtc_refl].
  - vm_compute. reflexivity.
  - vm_compute. reflexivity.
Defined.

(** X8 on a second call after a first one that built the client. *)
Lemma setup_state_stable_once_done_witness :
  let W := sample_collaborators
             [inr (text_completion (Some "hello"));
              inr (text_completion None)] in
  let p1 :=
    (@query W None (Some "hi") None false ∅
       (@initial_process W sample_environ)).2 in
  let p2 := (@query W None (Some "again") None false ∅ p1).2 in
  setup_state p2 = setup_state p1.
Proof.
  intros W p1 p2.
  refine (@setup_state_stable_once_done W p1 p2 _ _).
  - refine (rtc_l _ p1 p2 p2 _ _); [apply QueryStep|apply rtc_refl].
  - vm_compute. reflexivity.
Defined.

(** X9 on a remote that refuses the key after one attempt retried for
    the rate limit. *)
Lemma query_propagates_completion_error_witness :
  let W := retrying_collaborators
             [(inl authentication_error, [rate_limit_text])] in
  let p := @initial_process W sample_environ in
  let r := @query W None (Some "hi") None false ∅ p in
  r.1 = inl authentication_error
  ∧ requests r.2 = requests p ++ [request_of None (Some "hi") None ∅]
  ∧ ticks r.2 = S (ticks p)
  ∧ records r.2
    = records p ++ tool_calling_records None
      ++ (LogRecord INFO <$> [rate_limit_text]).
Proof.
  intros W p r.
  refine (@query_propagates_completion_error W None (Some "hi") None false ∅
            p (@_setup_openrouter_client W p).2 the_sample_client
            authentication_error [rate_limit_text] _ _ _ _).
  - vm_compute. reflexivity.
  - vm_compute. reflexivity.
  - vm_compute. reflexivity.
  - vm_compute. reflexivity.
Defined.

(** X10 on a parameter [messages]. *)
Lemma query_rejects_reserved_keyword_witness :
  let W := sample_collaborators [inr (text_completion (Some "hello"))] in
  let p := @initial_process W sample_environ in
  let r := @query W None (Some "hi") None false {[ "messages" := PList [] ]}
             p in
  requests r.2 = requests p
  ∧ (∃ e, r.1 = inl e)
  ∧ (∀ p0 client,
       @_setup_openrouter_client W p = (inr tt, p0) →
       _client p0 = Some client →
       ∃ text, r.1 = inl (Exn TypeError text)).
Proof.
  intros W p r.
  refine (@query_rejects_reserved_keyword W None (Some "hi") None false
            {[ "messages" := PList [] ]} p "messages" (PList []) _ _ _).
  - left. reflexivity.
  - reflexivity.
  - discriminate.
Defined.

(** X11 on a completion with no choice and no usage. *)
Lemma query_rejects_incomplete_response_witness :
  let W := sample_collaborators [inr bare_completion] in
  let p := @initial_process W sample_environ in
  let p1 := (@request_completion W None (Some "hi") None ∅ p).2 in
  @query W None (Some "hi") None false ∅ p
  = (inl (Exn IndexError "list index out of range"), p1)
  ∧ ∃ e p', @query W None (Some "hi") None false ∅ p = (inl e, p').
Proof.
  intros W p p1.
  assert (@request_completion W None (Some "hi") None ∅ p
          = (inr (bare_completion,
                  SFsub 53 1024 (sample_time 1) (sample_time 0)), p1))
    as Hreq by (vm_compute; reflexivity).
  destruct (@query_rejects_incomplete_response W None (Some "hi") None false
              ∅ p bare_completion
              (SFsub 53 1024 (sample_time 1) (sample_time 0)) p1 Hreq)
    as [Hchoices Husage].
  split; [apply Hchoices|apply Husage]; reflexivity.
Defined.

(** X12 on two thousand opening brackets, on which the decoder raises
    [RecursionError]. *)
Lemma query_passes_other_decode_exception_witness :
  let W := deep_collaborators
             [inr (tool_completion (Some [call_of "lookup" deep_arguments]))] in
  let p := @initial_process W sample_environ in
  @query W None (Some "hi") (Some lookup_spec) false ∅ p
  = (inl recursion_error,
     (@request_completion W None (Some "hi") (Some lookup_spec) ∅ p).2).
Proof.
  intros W p.
  refine (@query_passes_other_decode_exception W None (Some "hi")
            lookup_spec false ∅ p
            (tool_completion (Some [call_of "lookup" deep_arguments]))
            (SFsub 53 1024 (sample_time 1) (sample_time 0))
            (@request_completion W None (Some "hi") (Some lookup_spec) ∅ p).2
            (calls_choice (Some [call_of "lookup" deep_arguments])) []
            (call_of "lookup" deep_arguments) [] recursion_error
            _ _ _ _ _ _).
  - vm_compute. reflexivity.
  - reflexivity.
  - reflexivity.
  - reflexivity.
  - vm_compute. reflexivity.
  - discriminate.
Defined.
